(** * Diabetes dashboard: the filtering and derivation pipeline of [Diabetes.py]

    The script loads the bundled diabetes dataset into a table, derives a
    [sex_cat] column, translates the widget selections through the feature
    catalog, filters the table on the target column and summarises the result.

    Numbers.  The table holds finite doubles; every finite double is a
    rational, and the comparisons and the truncation [int] the script applies
    to them are exact, so a table cell is a [Q].  A reduction of a column
    (mean, min, quantile, ...) yields a [float]: a rational or [NaN].
    Minimum and maximum pick a value of the column and are exact.  Sums,
    means, variances, quantiles and roundings are computed here over [Q]
    without the rounding of double arithmetic: they are the values that the
    doubles of pandas approximate, and equal them where every intermediate
    result is a double (whole numbers of moderate size, for instance).  No
    statement below relies on them beyond that. *)

From Stdlib Require Import String Ascii ZArith QArith Qround Qabs Lia Bool Arith List.
From Stdlib Require Import DecimalString Decimal Permutation Sorted.
Import ListNotations.

Close Scope Q_scope.
Local Open Scope string_scope.
Local Open Scope list_scope.

(** ** Python values the script relies on *)

Module Py.

(** The exceptions the modelled operations can raise. *)
Inductive exn : Type :=
| KeyError (key : string)
| ValueError
| TypeError
| StreamlitAPIException.

(** [KeyError] is a subclass of [LookupError]; the others are not. *)
Definition is_LookupError (e : exn) : bool :=
  match e with
  | KeyError _ => true
  | ValueError | TypeError | StreamlitAPIException => false
  end.

Inductive result (A : Type) : Type :=
| Ok (a : A)
| Raise (e : exn).
Arguments Ok {A} a.
Arguments Raise {A} e.

Definition bind {A B : Type} (c : result A) (k : A -> result B) : result B :=
  match c with
  | Ok a => k a
  | Raise e => Raise e
  end.

(** A [dict] with string keys, in insertion order. *)
Definition dict (V : Type) : Type := list (string * V).

(** [d[k]] *)
Fixpoint getitem {V : Type} (d : dict V) (k : string) : result V :=
  match d with
  | [] => Raise (KeyError k)
  | (k', v) :: d' => if String.eqb k' k then Ok v else getitem d' k
  end.

(** [d[k] = v]: an existing key keeps its place, a new one goes last. *)
Fixpoint setitem {V : Type} (d : dict V) (k : string) (v : V) : dict V :=
  match d with
  | [] => [(k, v)]
  | (k', v') :: d' =>
      if String.eqb k' k then (k', v) :: d' else (k', v') :: setitem d' k v
  end.

(** A dict display or comprehension: the items are stored left to right. *)
Definition of_items {V : Type} (items : list (string * V)) : dict V :=
  fold_left (fun d kv => setitem d (fst kv) (snd kv)) items [].

Definition items {V : Type} (d : dict V) : list (string * V) := d.
Definition keys {V : Type} (d : dict V) : list string := map fst d.
Definition values {V : Type} (d : dict V) : list V := map snd d.

(** A double: a finite value or not-a-number. *)
Inductive float : Type :=
| Fin (q : Q)
| NaN.

(** [x > 0] on a finite double. *)
Definition Qgt_bool (x y : Q) : bool := negb (Qle_bool x y).

(** Truncation of a rational toward zero. *)
Definition trunc (q : Q) : Z := Z.quot (Qnum q) (Zpos (Qden q)).

(** [int(x)]: truncation toward zero; [int(nan)] raises [ValueError]. *)
Definition int (x : float) : result Z :=
  match x with
  | Fin q => Ok (trunc q)
  | NaN => Raise ValueError
  end.

(** Rounding of a non-negative rational to the nearest integer, ties to
    the even one. *)
Definition round_half_even (q : Q) : Z :=
  let f := Qfloor q in
  let r := (q - inject_Z f)%Q in
  match Qcompare r (1 # 2) with
  | Lt => f
  | Gt => (f + 1)%Z
  | Eq => if Z.even f then f else (f + 1)%Z
  end.

Definition digits (z : Z) : string :=
  NilZero.string_of_uint (N.to_uint (Z.to_N z)).

(** [f"{x:.2f}"] *)
Definition format_2f (x : float) : string :=
  match x with
  | NaN => "nan"
  | Fin q =>
      let n := round_half_even (Qabs q * 100)%Q in
      let frac := (n mod 100)%Z in
      (if Qgt_bool 0 q then "-" else "")
        ++ digits (n / 100)%Z ++ "."
        ++ (if (frac <? 10)%Z then "0" else "") ++ digits frac
  end.

End Py.

Import Py.

Notation "x <- c ;; k" := (Py.bind c (fun x => k))
  (at level 61, c at next level, right associativity).

(** ** The part of pandas the script uses *)

Module pd.

(** A column is a float64 array or an object array of strings. *)
Inductive column : Type :=
| FloatCol (xs : list Q)
| ObjCol (xs : list string).

Definition col_len (c : column) : nat :=
  match c with
  | FloatCol xs => length xs
  | ObjCol xs => length xs
  end.

(** A frame: the row labels and the named columns, in column order. *)
Record DataFrame : Type := mkDataFrame {
  index : list nat;
  cols : dict column
}.

Definition columns (df : DataFrame) : list string := keys (cols df).

(** [len(df)] *)
Definition len (df : DataFrame) : nat := length (index df).

(** A two-dimensional array, row by row. *)
Definition ndarray : Type := list (list Q).

Definition array_column (data : ndarray) (j : nat) : list Q :=
  map (fun row => nth j row 0%Q) data.

(** [pd.DataFrame(data, columns=names)]: the rows are labelled 0, 1, ...;
    a row whose width is not the number of names is a [ValueError].  The
    columns are kept under their names, which the bundled dataset has
    distinct. *)
Definition DataFrame_new (data : ndarray) (names : list string)
  : result DataFrame :=
  if forallb (fun row => Nat.eqb (length row) (length names)) data
  then Ok {| index := seq 0 (length data);
             cols := of_items
                       (map (fun jn => (snd jn, FloatCol (array_column data (fst jn))))
                            (combine (seq 0 (length names)) names)) |}
  else Raise ValueError.

(** [df[name]] *)
Definition df_getitem (df : DataFrame) (name : string) : result column :=
  getitem (cols df) name.

(** [df[name] = c]: the values must be as many as the rows. *)
Definition df_setitem (df : DataFrame) (name : string) (c : column)
  : result DataFrame :=
  if Nat.eqb (col_len c) (len df)
  then Ok {| index := index df; cols := setitem (cols df) name c |}
  else Raise ValueError.

(** The script reduces and compares float columns only and counts the
    values of a string column only (or of a column with no value at all);
    the use of a column at the other type, which no run reaches, is a
    [TypeError] here. *)
Definition as_float (c : column) : result (list Q) :=
  match c with
  | FloatCol xs => Ok xs
  | ObjCol _ => Raise TypeError
  end.

Definition as_str (c : column) : result (list string) :=
  match c with
  | ObjCol xs => Ok xs
  | FloatCol [] => Ok []
  | FloatCol (_ :: _) => Raise TypeError
  end.

(** [s >= z] and [s <= z] for a Python integer [z], element by element.
    The comparison converts [z] to a double.  An integer of magnitude at
    most 2^53 is a double, so the conversion leaves it as it is and the
    comparison is the exact one below; every value of the range slider is
    such an integer.  A larger integer would be rounded first: the
    properties that depend on the value of the bound are stated for bounds
    of magnitude at most 2^53. *)
Definition ge (c : column) (z : Z) : result (list bool) :=
  xs <- as_float c ;; Ok (map (fun t => Qle_bool (inject_Z z) t) xs).

Definition le (c : column) (z : Z) : result (list bool) :=
  xs <- as_float c ;; Ok (map (fun t => Qle_bool t (inject_Z z)) xs).

(** [m1 & m2] *)
Definition and_ (m1 m2 : list bool) : list bool :=
  map (fun bb => andb (fst bb) (snd bb)) (combine m1 m2).

(** The entries of [l] at the places where the mask holds. *)
Fixpoint mask {A : Type} (m : list bool) (l : list A) : list A :=
  match m, l with
  | b :: m', x :: l' => if b then x :: mask m' l' else mask m' l'
  | _, _ => []
  end.

Definition col_mask (m : list bool) (c : column) : column :=
  match c with
  | FloatCol xs => FloatCol (mask m xs)
  | ObjCol xs => ObjCol (mask m xs)
  end.

(** [df[m]] for a boolean mask: the rows where it holds, labels kept; a
    mask of another length is a [ValueError]. *)
Definition df_getitem_mask (df : DataFrame) (m : list bool)
  : result DataFrame :=
  if Nat.eqb (length m) (len df)
  then Ok {| index := mask m (index df);
             cols := map (fun nc => (fst nc, col_mask m (snd nc))) (cols df) |}
  else Raise ValueError.

(** [df.copy()] *)
Definition copy (df : DataFrame) : DataFrame := df.

(** [df[names]] for a list of names: those columns, in that order. *)
Fixpoint select (cs : dict column) (names : list string)
  : result (dict column) :=
  match names with
  | [] => Ok []
  | n :: names' =>
      c <- getitem cs n ;;
      rest <- select cs names' ;;
      Ok ((n, c) :: rest)
  end.

Definition df_getitem_list (df : DataFrame) (names : list string)
  : result DataFrame :=
  cs <- select (cols df) names ;;
  Ok {| index := index df; cols := cs |}.

(** [df.rename(columns=mapping)]: a name the mapping has is replaced, any
    other name stays. *)
Definition rename_one (mapping : dict string) (name : string) : string :=
  match getitem mapping name with
  | Ok name' => name'
  | Raise _ => name
  end.

Definition rename (df : DataFrame) (mapping : dict string) : DataFrame :=
  {| index := index df;
     cols := map (fun nc => (rename_one mapping (fst nc), snd nc)) (cols df) |}.

(** [df.reset_index(drop=True)] and [df.head(n)] *)
Definition reset_index (df : DataFrame) : DataFrame :=
  {| index := seq 0 (len df); cols := cols df |}.

Definition col_head (n : nat) (c : column) : column :=
  match c with
  | FloatCol xs => FloatCol (firstn n xs)
  | ObjCol xs => ObjCol (firstn n xs)
  end.

Definition head (df : DataFrame) (n : nat) : DataFrame :=
  {| index := firstn n (index df);
     cols := map (fun nc => (fst nc, col_head n (snd nc))) (cols df) |}.

(** [s.apply(f)] with [f] from floats to strings: a column of the strings,
    but a column with no value keeps its float type, since there is no
    result to take the type from. *)
Definition apply (c : column) (f : Q -> string) : result column :=
  xs <- as_float c ;;
  Ok match xs with
     | [] => FloatCol []
     | _ :: _ => ObjCol (map f xs)
     end.

(** *** Reductions of a float column *)

Definition of_nat (n : nat) : Q := inject_Z (Z.of_nat n).

(** The exact sum of the values; pandas adds them as doubles, which gives
    this sum whenever the partial sums are doubles. *)
Definition Series_sum (xs : list Q) : Q := fold_left Qplus xs 0%Q.

(** [s.mean()]: not-a-number on no values, else the exact mean, which the
    mean pandas computes in doubles approximates. *)
Definition Series_mean (xs : list Q) : float :=
  match xs with
  | [] => NaN
  | _ :: _ => Fin (Series_sum xs / of_nat (length xs))%Q
  end.

Definition Qmin (a b : Q) : Q := if Qle_bool a b then a else b.
Definition Qmax (a b : Q) : Q := if Qle_bool a b then b else a.

(** [s.min()] and [s.max()]: not-a-number on no values. *)
Definition Series_min (xs : list Q) : float :=
  match xs with
  | [] => NaN
  | x :: xs' => Fin (fold_left Qmin xs' x)
  end.

Definition Series_max (xs : list Q) : float :=
  match xs with
  | [] => NaN
  | x :: xs' => Fin (fold_left Qmax xs' x)
  end.

(** [s.var()], with one degree of freedom removed: not-a-number on fewer
    than two values. *)
Definition Series_var (xs : list Q) : float :=
  match xs with
  | [] | [_] => NaN
  | _ :: _ :: _ =>
      let m := (Series_sum xs / of_nat (length xs))%Q in
      Fin (Series_sum (map (fun x => (x - m) * (x - m)) xs)
           / of_nat (length xs - 1))%Q
  end.

Fixpoint insert_sorted (x : Q) (l : list Q) : list Q :=
  match l with
  | [] => [x]
  | y :: l' => if Qle_bool x y then x :: l else y :: insert_sorted x l'
  end.

Definition sort_values (xs : list Q) : list Q :=
  fold_right insert_sorted [] xs.

(** [s.quantile(p)], interpolating linearly between the two nearest
    ranks: not-a-number on no values. *)
Definition Series_quantile (xs : list Q) (p : Q) : float :=
  match sort_values xs with
  | [] => NaN
  | ys =>
      let h := (of_nat (length ys - 1) * p)%Q in
      let i := Z.to_nat (Qfloor h) in
      let g := (h - inject_Z (Qfloor h))%Q in
      let a := nth i ys 0%Q in
      let b := nth (Nat.min (S i) (length ys - 1)) ys 0%Q in
      Fin (a + g * (b - a))%Q
  end.

(** An entry of [describe()]: a float, or the square root of one (the
    standard deviation, which is irrational in general). *)
Inductive stat : Type :=
| Exact (x : float)
| Sqrt (x : float).

(** [s.describe()] of a float column, under pandas' row labels. *)
Definition Series_describe (xs : list Q) : dict stat :=
  [ ("count", Exact (Fin (of_nat (length xs))));
    ("mean", Exact (Series_mean xs));
    ("std", Sqrt (Series_var xs));
    ("min", Exact (Series_min xs));
    ("25%", Exact (Series_quantile xs (1 # 4)));
    ("50%", Exact (Series_quantile xs (1 # 2)));
    ("75%", Exact (Series_quantile xs (3 # 4)));
    ("max", Exact (Series_max xs)) ].

(** [df.describe()]: one summary per float column; the string columns of
    a frame that has float columns are left out. *)
Fixpoint describe_cols (cs : dict column) : dict (dict stat) :=
  match cs with
  | [] => []
  | (n, FloatCol xs) :: cs' => (n, Series_describe xs) :: describe_cols cs'
  | (_, ObjCol _) :: cs' => describe_cols cs'
  end.

Definition describe (df : DataFrame) : dict (dict stat) :=
  describe_cols (cols df).

(** Rounding to three decimals, ties to even, of the exact value (numpy
    rounds [x * 1000] as a double, so a value next to a tie can round the
    other way).  The nearest integer to [1000 * sqrt v] is found with the
    integer square root. *)
Definition round3_fin (q : Q) : Q :=
  let n := inject_Z (round_half_even (Qabs q * 1000)%Q) in
  if Qgt_bool 0 q then (- (n / 1000))%Q else (n / 1000)%Q.

Definition round3_sqrt (v : Q) : Q :=
  let s := (v * 1000000)%Q in
  let k := Z.sqrt (Qfloor s) in
  let half := (inject_Z k + (1 # 2))%Q in
  let n := match Qcompare s (half * half)%Q with
           | Lt => k
           | Gt => (k + 1)%Z
           | Eq => if Z.even k then k else (k + 1)%Z
           end in
  (inject_Z n / 1000)%Q.

Definition round3 (s : stat) : float :=
  match s with
  | Exact (Fin q) => Fin (round3_fin q)
  | Sqrt (Fin v) => Fin (round3_sqrt v)
  | Exact NaN | Sqrt NaN => NaN
  end.

(** [describe().round(3)] *)
Definition round_ (d : dict (dict stat)) : dict (dict float) :=
  map (fun ns => (fst ns, map (fun ls => (fst ls, round3 (snd ls))) (snd ns))) d.

(** *** Counting the values of a string column *)

Fixpoint count_of (s : string) (xs : list string) : nat :=
  match xs with
  | [] => 0
  | x :: xs' => (if String.eqb x s then 1 else 0) + count_of s xs'
  end.

(** The distinct values, in order of first appearance. *)
Fixpoint unique (xs : list string) : list string :=
  match xs with
  | [] => []
  | x :: xs' => x :: filter (fun y => negb (String.eqb x y)) (unique xs')
  end.

Fixpoint insert_count (e : string * nat) (l : list (string * nat))
  : list (string * nat) :=
  match l with
  | [] => [e]
  | e' :: l' =>
      if Nat.leb (snd e') (snd e) then e :: l else e' :: insert_count e l'
  end.

(** [s.value_counts()]: most frequent first, equal counts in order of
    first appearance. *)
Definition value_counts (xs : list string) : list (string * nat) :=
  fold_right insert_count [] (map (fun u => (u, count_of u xs)) (unique xs)).

(** A two-column table with its header, as
    [rename_axis(a).reset_index(name=b)] makes of the counts. *)
Record CountTable : Type := mkCountTable {
  header : string * string;
  body : list (string * nat)
}.

(** *** The rows of a frame *)

Inductive cell : Type :=
| Num (q : Q)
| Str (s : string).

Definition col_cells (c : column) : list cell :=
  match c with
  | FloatCol xs => map Num xs
  | ObjCol xs => map Str xs
  end.

(** A record: the row label and the row's cell under each column name. *)
Definition record : Type := nat * dict cell.

Definition add_field (name : string) (vr : cell * record) : record :=
  (fst (snd vr), (name, fst vr) :: snd (snd vr)).

Fixpoint records_of (idx : list nat) (cs : dict column) : list record :=
  match cs with
  | [] => map (fun i => (i, [])) idx
  | (n, c) :: cs' =>
      map (add_field n) (combine (col_cells c) (records_of idx cs'))
  end.

(** The rows of [df], top to bottom. *)
Definition records (df : DataFrame) : list record :=
  records_of (index df) (cols df).

(** [r[name]] *)
Definition field (r : record) (name : string) : result cell :=
  getitem (snd r) name.

End pd.

Import pd.

(** ** The script *)

(** What [datasets.load_diabetes()] hands over: the feature matrix, the names
    of its columns and the target vector. *)
Record Bunch : Type := mkBunch {
  data : ndarray;
  feature_names : list string;
  target : list Q
}.

(** The column names of the bundled dataset. *)
Definition diabetes_feature_names : list string :=
  ["age"; "sex"; "bmi"; "bp"; "s1"; "s2"; "s3"; "s4"; "s5"; "s6"].

Fixpoint names_eqb (a b : list string) : bool :=
  match a, b with
  | [], [] => true
  | x :: a', y :: b' => String.eqb x y && names_eqb a' b'
  | _, _ => false
  end.

(** The shape of the bundled dataset: ten named feature columns and one
    target per row. *)
Definition well_shaped (diabetes : Bunch) : bool :=
  names_eqb (feature_names diabetes) diabetes_feature_names
  && forallb (fun row => Nat.eqb (length row) 10) (data diabetes)
  && Nat.eqb (length (target diabetes)) (length (data diabetes)).

(** [lambda v: "male" if v > 0 else "female"] *)
Definition sex_cat (v : Q) : string :=
  if Qgt_bool v 0 then "male" else "female".

(** The base table: the features, then [target], then [sex_cat]. *)
Definition df (diabetes : Bunch) : result DataFrame :=
  df0 <- DataFrame_new (data diabetes) (feature_names diabetes) ;;
  df1 <- df_setitem df0 "target" (FloatCol (target diabetes)) ;;
  sex <- df_getitem df1 "sex" ;;
  cat <- apply sex sex_cat ;;
  df_setitem df1 "sex_cat" cat.

Definition feature_name_map : dict string :=
  of_items
    [ ("age", "Age");
      ("sex", "Sex");
      ("bmi", "Body Mass Index (BMI)");
      ("bp", "Blood Pressure");
      ("s1", "Total Serum Cholesterol (TC)");
      ("s2", "Low-Density Lipoprotein (LDL)");
      ("s3", "High-Density Lipoprotein (HDL)");
      ("s4", "Triglycerides (TG)");
      ("s5", "Serum Glucose");
      ("s6", "Serum TSH") ].

(** [{v: k for k, v in feature_name_map.items()}] *)
Definition readable_to_original : dict string :=
  of_items (map (fun kv => (snd kv, fst kv)) (items feature_name_map)).

Definition readable_features : list string := values feature_name_map.

(** The state of the sidebar widgets: what the two select boxes, the range
    slider and the two check boxes return. *)
Record Widgets : Type := mkWidgets {
  x_feature_readable : string;
  y_feature_readable : string;
  target_range : Z * Z;
  colour_by_sex : bool;
  show_raw : bool
}.

(** A select box offers [options] and starts at [options[index]]. *)
Definition selectbox_default (options : list string) (index : nat) : string :=
  nth index options "".

Definition x_feature (w : Widgets) : result string :=
  getitem readable_to_original (x_feature_readable w).

Definition y_feature (w : Widgets) : result string :=
  getitem readable_to_original (y_feature_readable w).

(** [int(df["target"].min())] and [int(df["target"].max())] *)
Definition min_target (d : DataFrame) : result Z :=
  t <- df_getitem d "target" ;;
  xs <- as_float t ;;
  int (Series_min xs).

Definition max_target (d : DataFrame) : result Z :=
  t <- df_getitem d "target" ;;
  xs <- as_float t ;;
  int (Series_max xs).

(** The largest integer the front end of Streamlit holds exactly. *)
Definition JS_MAX_SAFE_INTEGER : Z := (2 ^ 53 - 1)%Z.

Definition validate_int_bounds (z : Z) : bool :=
  ((- JS_MAX_SAFE_INTEGER <=? z) && (z <=? JS_MAX_SAFE_INTEGER))%Z.

(** [st.sidebar.slider(label, min_value, max_value, value)] for a range of
    integers.  Streamlit raises [StreamlitAPIException] unless [min_value]
    is less than [max_value] and both are integers its front end holds
    exactly; the slider starts at [value] and returns the range it holds,
    [state], which the front end keeps ordered and within the two bounds. *)
Definition slider (min_value max_value : Z) (value state : Z * Z)
  : result (Z * Z) :=
  if validate_int_bounds min_value && validate_int_bounds max_value
     && (min_value <? max_value)%Z
  then Ok state
  else Raise StreamlitAPIException.

(** The widgets as the sidebar first shows them. *)
Definition default_widgets (d : DataFrame) : result Widgets :=
  lo <- min_target d ;;
  hi <- max_target d ;;
  r <- slider lo hi (lo, hi) (lo, hi) ;;
  Ok {| x_feature_readable := selectbox_default readable_features 2;
        y_feature_readable := selectbox_default readable_features 3;
        target_range := r;
        colour_by_sex := true;
        show_raw := false |}.

(** [df[(df["target"] >= r[0]) & (df["target"] <= r[1])].copy()] *)
Definition filtered (d : DataFrame) (r : Z * Z) : result DataFrame :=
  t1 <- df_getitem d "target" ;;
  m1 <- ge t1 (fst r) ;;
  t2 <- df_getitem d "target" ;;
  m2 <- le t2 (snd r) ;;
  f <- df_getitem_mask d (and_ m1 m2) ;;
  Ok (copy f).

(** The three metrics of the page header. *)
Record Metrics : Type := mkMetrics {
  filtered_rows : nat;
  mean_target : string;
  mean_bmi : string
}.

Definition column_mean (f : DataFrame) (name : string) : result float :=
  c <- df_getitem f name ;;
  xs <- as_float c ;;
  Ok (Series_mean xs).

Definition metrics (f : DataFrame) : result Metrics :=
  let rows := len f in
  mt <- column_mean f "target" ;;
  mb <- column_mean f "bmi" ;;
  Ok {| filtered_rows := rows;
        mean_target := format_2f mt;
        mean_bmi := format_2f mb |}.

(** The scatter chart: the two chosen columns, the colouring column if
    asked for, the axis labels and the title. *)
Record Scatter : Type := mkScatter {
  scatter_x : column;
  scatter_y : column;
  scatter_color : option column;
  scatter_labels : dict string;
  scatter_title : string
}.

(** plotly looks a named column up in the frame and raises [ValueError]
    when the frame has none of that name. *)
Definition px_column (f : DataFrame) (name : string) : result column :=
  match df_getitem f name with
  | Ok c => Ok c
  | Raise _ => Raise ValueError
  end.

Definition fig_scatter (f : DataFrame) (x y : string) (by_sex : bool)
  : result Scatter :=
  lx <- getitem feature_name_map x ;;
  ly <- getitem feature_name_map y ;;
  let labels := of_items [(x, lx); (y, ly); ("sex_cat", "Gender")] in
  tx <- getitem feature_name_map x ;;
  ty <- getitem feature_name_map y ;;
  cx <- px_column f x ;;
  cy <- px_column f y ;;
  color <- (if by_sex
            then c <- px_column f "sex_cat" ;; Ok (Some c)
            else Ok None) ;;
  Ok {| scatter_x := cx;
        scatter_y := cy;
        scatter_color := color;
        scatter_labels := labels;
        scatter_title := tx ++ " vs " ++ ty |}.

(** The histogram of the target column. *)
Record Histogram : Type := mkHistogram {
  hist_x : column;
  hist_nbins : nat
}.

Definition fig_hist (f : DataFrame) : result Histogram :=
  c <- px_column f "target" ;;
  Ok {| hist_x := c; hist_nbins := 30 |}.

(** The pairwise matrix. *)
Definition pair_feats : list string := ["bmi"; "bp"; "target"].

Definition small_df (f : DataFrame) : result DataFrame :=
  s <- df_getitem_list f pair_feats ;;
  Ok (rename s feature_name_map).

Record ScatterMatrix : Type := mkScatterMatrix {
  matrix_frame : DataFrame;
  matrix_dimensions : list string
}.

Definition fig_pair (f : DataFrame) : result ScatterMatrix :=
  s <- small_df f ;;
  Ok {| matrix_frame := s; matrix_dimensions := columns s |}.

(** The data summary: the rounded descriptive statistics, the counts by
    gender and, when asked for, the first 200 rows. *)
Definition descriptive_statistics (f : DataFrame) : dict (dict float) :=
  round_ (describe f).

Definition counts_by_gender (f : DataFrame) : result CountTable :=
  c <- df_getitem f "sex_cat" ;;
  xs <- as_str c ;;
  Ok {| header := ("Gender", "Count"); body := value_counts xs |}.

Definition raw_rows (f : DataFrame) : DataFrame :=
  head (reset_index f) 200.

(** What one run of the script puts on the page. *)
Record Page : Type := mkPage {
  page_metrics : Metrics;
  page_scatter : Scatter;
  page_hist : Histogram;
  page_pair : ScatterMatrix;
  page_statistics : dict (dict float);
  page_counts : CountTable;
  page_raw : option DataFrame
}.

(** One run of the script on the loaded dataset and the widget state. *)
Definition run (diabetes : Bunch) (w : Widgets) : result Page :=
  d <- df diabetes ;;
  x <- x_feature w ;;
  y <- y_feature w ;;
  min_target <- min_target d ;;
  max_target <- max_target d ;;
  target_range <- slider min_target max_target (min_target, max_target)
                         (target_range w) ;;
  f <- filtered d target_range ;;
  m <- metrics f ;;
  sc <- fig_scatter f x y (colour_by_sex w) ;;
  h <- fig_hist f ;;
  p <- fig_pair f ;;
  let st := descriptive_statistics f in
  ct <- counts_by_gender f ;;
  Ok {| page_metrics := m;
        page_scatter := sc;
        page_hist := h;
        page_pair := p;
        page_statistics := st;
        page_counts := ct;
        page_raw := if show_raw w then Some (raw_rows f) else None |}.

(** ** Vocabulary of the statements *)

(** The target value [t] lies in the inclusive range [r]. *)
Definition in_range (r : Z * Z) (t : Q) : bool :=
  Qle_bool (inject_Z (fst r)) t && Qle_bool t (inject_Z (snd r)).

(** The record [rec] has a numeric target that lies in the range [r]. *)
Definition target_in (r : Z * Z) (rec : record) : bool :=
  match field rec "target" with
  | Ok (Num t) => in_range r t
  | _ => false
  end.

(** Every column of the frame has one value per row label. *)
Definition aligned (d : DataFrame) : Prop :=
  Forall (fun nc => col_len (snd nc) = len d) (cols d).

(** The value [t] is a whole number. *)
Definition integral (t : Q) : Prop := exists k : Z, (t == inject_Z k)%Q.

(** The integer [z] is a double: comparing a float column with it compares
    with [z] itself.  Every integer the slider accepts as a bound, and with
    it every value the slider holds, is one. *)
Definition double_exact (z : Z) : Prop := (Z.abs z <= 2 ^ 53)%Z.

(** ** Sample datasets *)

(** A sample whose sex feature is [s] and whose other features are zero. *)
Definition sample (s : Q) : list Q :=
  [0; s; 0; 0; 0; 0; 0; 0; 0; 0]%Q.

(** Four records with targets 25, 50, 75, 100 and sex features of signs
    +, -, +, -. *)
Definition four_records : Bunch :=
  {| data := [sample (1 # 20); sample (-1 # 20); sample (1 # 20); sample (-1 # 20)];
     feature_names := diabetes_feature_names;
     target := [25; 50; 75; 100]%Q |}.

(** Two records whose targets, 1/2 and 3/2, are not whole numbers. *)
Definition half_records : Bunch :=
  {| data := [sample (1 # 20); sample (-1 # 20)];
     feature_names := diabetes_feature_names;
     target := [1 # 2; 3 # 2]%Q |}.

(** The bundled columns with no record at all. *)
Definition no_records : Bunch :=
  {| data := [];
     feature_names := diabetes_feature_names;
     target := [] |}.

(** The table of [four_records]. *)
Definition four_table : DataFrame :=
  {| index := [0; 1; 2; 3];
     cols :=
       [ ("age", FloatCol [0; 0; 0; 0]%Q);
         ("sex", FloatCol [1 # 20; -1 # 20; 1 # 20; -1 # 20]%Q);
         ("bmi", FloatCol [0; 0; 0; 0]%Q);
         ("bp", FloatCol [0; 0; 0; 0]%Q);
         ("s1", FloatCol [0; 0; 0; 0]%Q);
         ("s2", FloatCol [0; 0; 0; 0]%Q);
         ("s3", FloatCol [0; 0; 0; 0]%Q);
         ("s4", FloatCol [0; 0; 0; 0]%Q);
         ("s5", FloatCol [0; 0; 0; 0]%Q);
         ("s6", FloatCol [0; 0; 0; 0]%Q);
         ("target", FloatCol [25; 50; 75; 100]%Q);
         ("sex_cat", ObjCol ["male"; "female"; "male"; "female"]) ] |}.

(** * Properties *)

(** ** Masks and lists *)

Section Masks.

Context {A B : Type}.

Lemma mask_nil_r (m : list bool) : mask m (@nil A) = [].
Proof. destruct m; reflexivity. Qed.

Lemma mask_map (f : A -> B) (m : list bool) (l : list A) :
  mask m (map f l) = map f (mask m l).
Proof.
  revert l; induction m as [|b m IH]; intros [|x l]; simpl; try reflexivity.
  destruct b; simpl; now rewrite IH.
Qed.

Lemma mask_combine (m : list bool) (l : list A) (l' : list B) :
  mask m (combine l l') = combine (mask m l) (mask m l').
Proof.
  revert l l'; induction m as [|b m IH]; intros [|x l] [|y l']; simpl;
    try reflexivity.
  - destruct b; [simpl|]; now destruct (mask m l).
  - destruct b; simpl; now rewrite IH.
Qed.

Lemma mask_filter (p : A -> bool) (l : list A) :
  mask (map p l) l = filter p l.
Proof.
  induction l as [|x l IH]; simpl; [reflexivity|].
  destruct (p x); now rewrite IH.
Qed.

Lemma mask_length (m : list bool) (l : list A) (l' : list B) :
  length l = length l' -> length (mask m l) = length (mask m l').
Proof.
  revert l l'; induction m as [|b m IH]; intros [|x l] [|y l'] H; simpl in *;
    try reflexivity; try discriminate.
  injection H as H. destruct b; simpl; auto.
Qed.

Lemma mask_all_true (m : list bool) (l : list A) :
  forallb (fun b => b) m = true -> length m = length l -> mask m l = l.
Proof.
  revert l; induction m as [|b m IH]; intros [|x l] Hm Hl; simpl in *;
    try reflexivity; try discriminate.
  apply andb_true_iff in Hm as [-> Hm]. injection Hl as Hl.
  now rewrite IH.
Qed.

Lemma mask_eq_all_true (m : list bool) (l : list A) :
  length m = length l -> mask m l = l -> forallb (fun b => b) m = true.
Proof.
  revert l; induction m as [|b m IH]; intros [|x l] Hl Hm; simpl in *;
    try reflexivity; try discriminate.
  injection Hl as Hl. destruct b; simpl.
  - injection Hm as Hm. eauto.
  - exfalso.
    assert (Hlen : length (mask m l) <= length l).
    { clear. revert l. induction m as [|b m IHm]; intros [|y l]; simpl;
        try lia. destruct b; simpl; specialize (IHm l); lia. }
    rewrite Hm in Hlen. simpl in Hlen. lia.
Qed.

Lemma mask_none (m : list bool) (l : list A) :
  forallb negb m = true -> mask m l = [].
Proof.
  revert l; induction m as [|b m IH]; intros [|x l] Hm; simpl in *;
    try reflexivity.
  apply andb_true_iff in Hm as [Hb Hm]. destruct b; [discriminate|auto].
Qed.

End Masks.

Lemma and_map {A : Type} (p q : A -> bool) (l : list A) :
  and_ (map p l) (map q l) = map (fun x => p x && q x) l.
Proof.
  unfold and_. induction l as [|x l IH]; simpl; [reflexivity|].
  now rewrite IH.
Qed.

Lemma forallb_map_filter {A : Type} (p : A -> bool) (l : list A) :
  forallb (fun b => b) (map p (filter p l)) = true.
Proof.
  induction l as [|x l IH]; simpl; [reflexivity|].
  destruct (p x) eqn:E; simpl; [rewrite E|]; auto.
Qed.

Lemma length_nil_inv {A : Type} (l : list A) : length l = 0 -> l = [].
Proof. destruct l; [reflexivity|discriminate]. Qed.

(** ** Dictionaries *)

Lemma getitem_map_values {V W : Type} (g : V -> W) (d : dict V) (k : string) :
  getitem (map (fun kv => (fst kv, g (snd kv))) d) k
  = (v <- getitem d k ;; Ok (g v)).
Proof.
  induction d as [|[k' v] d IH]; simpl; [reflexivity|].
  destruct (String.eqb k' k); [reflexivity|exact IH].
Qed.

Lemma getitem_missing {V : Type} (d : dict V) (k : string) :
  ~ In k (keys d) -> getitem d k = Raise (KeyError k).
Proof.
  induction d as [|[k' v] d IH]; simpl; intros H; [reflexivity|].
  destruct (String.eqb_spec k' k) as [->|_]; [tauto|].
  apply IH. tauto.
Qed.

Lemma getitem_present {V : Type} (d : dict V) (k : string) (v : V) :
  getitem d k = Ok v -> In (k, v) d.
Proof.
  induction d as [|[k' v'] d IH]; simpl; [discriminate|].
  destruct (String.eqb_spec k' k) as [->|_].
  - intros [= ->]. now left.
  - intros H. right. now apply IH.
Qed.

(** ** Frames and their rows *)

Lemma records_of_length (idx : list nat) (cs : dict column) :
  Forall (fun nc => col_len (snd nc) = length idx) cs ->
  length (records_of idx cs) = length idx.
Proof.
  induction 1 as [|[n c] cs Hc _ IH]; simpl.
  - now rewrite length_map.
  - rewrite length_map, length_combine, IH. simpl in Hc.
    destruct c; simpl in *; rewrite length_map; lia.
Qed.

Lemma records_length (d : DataFrame) :
  aligned d -> length (records d) = len d.
Proof. apply records_of_length. Qed.

Lemma col_cells_mask (m : list bool) (c : column) :
  col_cells (col_mask m c) = mask m (col_cells c).
Proof. destruct c; simpl; now rewrite mask_map. Qed.

Lemma records_of_mask (m : list bool) (idx : list nat) (cs : dict column) :
  records_of (mask m idx) (map (fun nc => (fst nc, col_mask m (snd nc))) cs)
  = mask m (records_of idx cs).
Proof.
  induction cs as [|[n c] cs IH]; simpl.
  - now rewrite mask_map.
  - now rewrite IH, col_cells_mask, <- mask_combine, mask_map.
Qed.

Lemma map_fst_combine {A B C : Type} (f : A -> C) (l : list A) (l' : list B) :
  length l = length l' ->
  map (fun p => f (fst p)) (combine l l') = map f l.
Proof.
  revert l'; induction l as [|x l IH]; intros [|y l'] H; simpl in *;
    try reflexivity; try discriminate.
  injection H as H. now rewrite IH.
Qed.

Lemma map_snd_combine {A B C : Type} (f : B -> C) (l : list A) (l' : list B) :
  length l = length l' ->
  map (fun p => f (snd p)) (combine l l') = map f l'.
Proof.
  revert l'; induction l as [|x l IH]; intros [|y l'] H; simpl in *;
    try reflexivity; try discriminate.
  injection H as H. now rewrite IH.
Qed.

(** The cells of a column are the fields of that name, row by row. *)
Lemma records_of_field (idx : list nat) (cs : dict column) (name : string)
      (c : column) :
  Forall (fun nc => col_len (snd nc) = length idx) cs ->
  getitem cs name = Ok c ->
  map (fun r => field r name) (records_of idx cs) = map Ok (col_cells c).
Proof.
  induction 1 as [|[n c0] cs Hc Hcs IH]; simpl; [discriminate|].
  assert (Hlen : length (col_cells c0) = length (records_of idx cs)).
  { rewrite records_of_length by assumption. simpl in Hc.
    destruct c0; simpl in *; now rewrite length_map. }
  rewrite map_map. unfold field, add_field. simpl.
  destruct (String.eqb n name) eqn:E.
  - intros [= <-].
    exact (map_fst_combine (fun v => Ok v) _ _ Hlen).
  - intros Hget.
    etransitivity;
      [exact (map_snd_combine (fun r => getitem (snd r) name) _ _ Hlen)|].
    now apply IH.
Qed.

Lemma records_field (d : DataFrame) (name : string) (c : column) :
  aligned d ->
  df_getitem d name = Ok c ->
  map (fun r => field r name) (records d) = map Ok (col_cells c).
Proof. apply records_of_field. Qed.

(** ** The range filter on an aligned frame with a float target *)

Section RangeFilter.

Variable d : DataFrame.
Variable ts : list Q.
Hypothesis Haligned : aligned d.
Hypothesis Htarget : df_getitem d "target" = Ok (FloatCol ts).

Lemma target_length : length ts = len d.
Proof.
  apply getitem_present in Htarget.
  unfold aligned in Haligned. rewrite Forall_forall in Haligned.
  exact (Haligned _ Htarget).
Qed.

(** The filter keeps the rows under the mask [in_range r] of the target
    column, in every column and in the row labels. *)
Lemma filtered_closed_form (r : Z * Z) :
  filtered d r
  = Ok {| index := mask (map (in_range r) ts) (index d);
          cols := map (fun nc => (fst nc, col_mask (map (in_range r) ts) (snd nc)))
                      (cols d) |}.
Proof.
  unfold filtered. rewrite Htarget. simpl.
  rewrite and_map. unfold df_getitem_mask.
  rewrite length_map, target_length, Nat.eqb_refl. reflexivity.
Qed.

Lemma target_in_records (r : Z * Z) :
  map (target_in r) (records d) = map (in_range r) ts.
Proof.
  pose proof (records_field d "target" _ Haligned Htarget) as H.
  simpl in H. unfold target_in.
  transitivity (map (fun x : result cell =>
                       match x with Ok (Num t) => in_range r t | _ => false end)
                    (map (fun rec => field rec "target") (records d))).
  - now rewrite map_map.
  - rewrite H, !map_map. reflexivity.
Qed.

Lemma filtered_records (r : Z * Z) (f : DataFrame) :
  filtered d r = Ok f ->
  records f = filter (target_in r) (records d).
Proof.
  rewrite filtered_closed_form. intros [= <-].
  unfold records at 1. simpl.
  now rewrite records_of_mask, <- target_in_records, mask_filter.
Qed.

Lemma filtered_aligned (r : Z * Z) (f : DataFrame) :
  filtered d r = Ok f -> aligned f.
Proof.
  rewrite filtered_closed_form. intros [= <-].
  unfold aligned, len in *. simpl.
  rewrite Forall_map. eapply Forall_impl; [|exact Haligned].
  intros [n c] Hc. simpl in *.
  destruct c; simpl in *; now apply mask_length.
Qed.

Lemma filtered_target (r : Z * Z) (f : DataFrame) :
  filtered d r = Ok f ->
  df_getitem f "target" = Ok (FloatCol (filter (in_range r) ts)).
Proof.
  rewrite filtered_closed_form. intros [= <-].
  unfold df_getitem in *. simpl.
  rewrite getitem_map_values, Htarget. simpl.
  now rewrite mask_filter.
Qed.

End RangeFilter.

(** ** The base table *)

Lemma names_eqb_eq (a b : list string) : names_eqb a b = true -> a = b.
Proof.
  revert b; induction a as [|x a IH]; intros [|y b]; simpl;
    try discriminate; [reflexivity|].
  intros H. apply andb_true_iff in H as [Hxy Hab].
  apply String.eqb_eq in Hxy. subst. f_equal. now apply IH.
Qed.

Section BaseTable.

Variable diabetes : Bunch.
Hypothesis Hshape : well_shaped diabetes = true.

Lemma shape_names : feature_names diabetes = diabetes_feature_names.
Proof.
  unfold well_shaped in Hshape.
  apply andb_true_iff in Hshape as [H _].
  apply andb_true_iff in H as [H _].
  now apply names_eqb_eq.
Qed.

Lemma shape_rows :
  forallb (fun row => Nat.eqb (length row) 10) (data diabetes) = true.
Proof.
  unfold well_shaped in Hshape.
  apply andb_true_iff in Hshape as [H _].
  now apply andb_true_iff in H as [_ H].
Qed.

Lemma shape_target : length (target diabetes) = length (data diabetes).
Proof.
  unfold well_shaped in Hshape.
  apply andb_true_iff in Hshape as [_ H].
  now apply Nat.eqb_eq.
Qed.

(** On the bundled shape the construction of the table succeeds, and the
    table is the ten feature columns, the target and the category. *)
Lemma df_closed_form :
  df diabetes
  = Ok {| index := seq 0 (length (data diabetes));
          cols :=
            [ ("age", FloatCol (array_column (data diabetes) 0));
              ("sex", FloatCol (array_column (data diabetes) 1));
              ("bmi", FloatCol (array_column (data diabetes) 2));
              ("bp", FloatCol (array_column (data diabetes) 3));
              ("s1", FloatCol (array_column (data diabetes) 4));
              ("s2", FloatCol (array_column (data diabetes) 5));
              ("s3", FloatCol (array_column (data diabetes) 6));
              ("s4", FloatCol (array_column (data diabetes) 7));
              ("s5", FloatCol (array_column (data diabetes) 8));
              ("s6", FloatCol (array_column (data diabetes) 9));
              ("target", FloatCol (target diabetes));
              ("sex_cat",
               match array_column (data diabetes) 1 with
               | [] => FloatCol []
               | _ :: _ =>
                   ObjCol (map sex_cat (array_column (data diabetes) 1))
               end) ] |}.
Proof.
  unfold df, DataFrame_new. rewrite shape_names. simpl.
  rewrite shape_rows. simpl.
  unfold df_setitem, len. simpl.
  rewrite length_seq, shape_target, Nat.eqb_refl. simpl.
  set (sc := match array_column (data diabetes) 1 with
             | [] => FloatCol []
             | _ :: _ => ObjCol (map sex_cat (array_column (data diabetes) 1))
             end).
  assert (Hcat : col_len sc = length (seq 0 (length (data diabetes)))).
  { rewrite length_seq.
    transitivity (length (array_column (data diabetes) 1));
      [|unfold array_column; apply length_map].
    unfold sc. destruct (array_column (data diabetes) 1); simpl;
      [reflexivity|now rewrite length_map]. }
  rewrite Hcat, Nat.eqb_refl. reflexivity.
Qed.

Variable d : DataFrame.
Hypothesis Hdf : df diabetes = Ok d.

Lemma df_len : len d = length (data diabetes).
Proof.
  rewrite df_closed_form in Hdf. injection Hdf as <-.
  unfold len. simpl. apply length_seq.
Qed.

Lemma df_aligned : aligned d.
Proof.
  rewrite df_closed_form in Hdf. injection Hdf as <-.
  unfold aligned, len. simpl. rewrite length_seq.
  assert (E : length (array_column (data diabetes) 1)
              = length (data diabetes))
    by (unfold array_column; apply length_map).
  repeat (apply Forall_cons;
          [simpl; solve [unfold array_column; rewrite ?length_map;
                         auto using shape_target]|]).
  apply Forall_cons; [|constructor]. simpl.
  destruct (array_column (data diabetes) 1); simpl in *;
    [exact E|now rewrite length_map].
Qed.

Lemma df_target : df_getitem d "target" = Ok (FloatCol (target diabetes)).
Proof.
  rewrite df_closed_form in Hdf. injection Hdf as <-. reflexivity.
Qed.

Lemma df_sex :
  df_getitem d "sex" = Ok (FloatCol (array_column (data diabetes) 1)).
Proof.
  rewrite df_closed_form in Hdf. injection Hdf as <-. reflexivity.
Qed.

(** With no record the table has no row. *)
Lemma df_no_records : data diabetes = [] -> records d = [].
Proof.
  intros Hdata. apply length_nil_inv.
  rewrite (records_length d df_aligned), df_len, Hdata. reflexivity.
Qed.

Hypothesis Hne : data diabetes <> [].

Lemma sex_column_nonempty :
  exists v vs, array_column (data diabetes) 1 = v :: vs.
Proof.
  unfold array_column. destruct (data diabetes) as [|row rows];
    [congruence|]. simpl. eauto.
Qed.

(** With at least one record the category column holds the strings. *)
Lemma df_closed_form_records :
  d = {| index := seq 0 (length (data diabetes));
         cols :=
           [ ("age", FloatCol (array_column (data diabetes) 0));
             ("sex", FloatCol (array_column (data diabetes) 1));
             ("bmi", FloatCol (array_column (data diabetes) 2));
             ("bp", FloatCol (array_column (data diabetes) 3));
             ("s1", FloatCol (array_column (data diabetes) 4));
             ("s2", FloatCol (array_column (data diabetes) 5));
             ("s3", FloatCol (array_column (data diabetes) 6));
             ("s4", FloatCol (array_column (data diabetes) 7));
             ("s5", FloatCol (array_column (data diabetes) 8));
             ("s6", FloatCol (array_column (data diabetes) 9));
             ("target", FloatCol (target diabetes));
             ("sex_cat",
              ObjCol (map sex_cat (array_column (data diabetes) 1))) ] |}.
Proof.
  rewrite df_closed_form in Hdf. injection Hdf as <-.
  destruct sex_column_nonempty as [v [vs ->]]. reflexivity.
Qed.

Lemma df_sex_cat :
  df_getitem d "sex_cat"
  = Ok (ObjCol (map sex_cat (array_column (data diabetes) 1))).
Proof. rewrite df_closed_form_records. reflexivity. Qed.

End BaseTable.

Lemma four_table_ok : df four_records = Ok four_table.
Proof. reflexivity. Qed.

(** ** The range filter on the base table *)

(** C1.  For bounds [lo <= hi] that are doubles (integers of magnitude at
    most 2^53, as every value of the slider is), the range filter applied to
    the base table succeeds and returns exactly the records whose target
    lies in the inclusive interval from [lo] to [hi], in the order they have
    in the base table; every record of the base table carries its target. *)
Theorem range_filter_exact :
  forall (diabetes : Bunch) (d : DataFrame) (lo hi : Z),
    well_shaped diabetes = true ->
    df diabetes = Ok d ->
    double_exact lo ->
    double_exact hi ->
    (lo <= hi)%Z ->
    exists f : DataFrame,
      filtered d (lo, hi) = Ok f
      /\ records f = filter (target_in (lo, hi)) (records d)
      /\ map (fun rec => field rec "target") (records d)
         = map (fun t => Ok (Num t)) (target diabetes)
      /\ forall rec : record,
           In rec (records f) <->
           In rec (records d)
           /\ exists t : Q,
                field rec "target" = Ok (Num t)
                /\ (inject_Z lo <= t)%Q /\ (t <= inject_Z hi)%Q.
Proof.
  intros diabetes d lo hi Hshape Hdf _ _ _.
  pose proof (df_aligned diabetes Hshape d Hdf) as Hal.
  pose proof (df_target diabetes Hshape d Hdf) as Ht.
  pose proof (filtered_closed_form d _ Hal Ht (lo, hi)) as Hf.
  eexists. split; [exact Hf|].
  pose proof (filtered_records d _ Hal Ht (lo, hi) _ Hf) as Hrec.
  split; [exact Hrec|].
  split.
  { rewrite (records_field d "target" _ Hal Ht). simpl.
    now rewrite map_map. }
  intros rec. rewrite Hrec, filter_In. unfold target_in, in_range. simpl.
  split.
  - intros [Hin Hp]. split; [exact Hin|].
    destruct (field rec "target") as [[t|s]|e]; try discriminate.
    exists t. apply andb_true_iff in Hp as [H1 H2].
    apply Qle_bool_iff in H1, H2. auto.
  - intros [Hin [t [-> [H1 H2]]]]. split; [exact Hin|].
    apply andb_true_iff. split; now apply Qle_bool_iff.
Qed.

Lemma range_filter_exact_witness :
  exists f : DataFrame,
    filtered four_table (50, 100)%Z = Ok f
    /\ records f = filter (target_in (50, 100)%Z) (records four_table)
    /\ map (fun rec => field rec "target") (records four_table)
       = map (fun t => Ok (Num t)) (target four_records)
    /\ forall rec : record,
         In rec (records f) <->
         In rec (records four_table)
         /\ exists t : Q,
              field rec "target" = Ok (Num t)
              /\ (inject_Z 50 <= t)%Q /\ (t <= inject_Z 100)%Q.
Proof.
  apply (range_filter_exact four_records four_table 50 100).
  - reflexivity.
  - reflexivity.
  - unfold double_exact. simpl. lia.
  - unfold double_exact. simpl. lia.
  - lia.
Defined.

Lemma in_range_inverted (lo hi : Z) (t : Q) :
  (lo > hi)%Z -> in_range (lo, hi) t = false.
Proof.
  intros Hgt. unfold in_range. simpl.
  destruct (Qle_bool (inject_Z lo) t) eqn:H1; [|reflexivity].
  destruct (Qle_bool t (inject_Z hi)) eqn:H2; [|reflexivity].
  apply Qle_bool_iff in H1, H2.
  pose proof (Qle_trans _ _ _ H1 H2) as H.
  rewrite <- Zle_Qle in H. lia.
Qed.

Lemma keys_map_values {V W : Type} (g : V -> W) (c : dict V) :
  keys (map (fun kv => (fst kv, g (snd kv))) c) = keys c.
Proof. unfold keys. rewrite map_map. reflexivity. Qed.

(** C10.  For bounds with [lo > hi] that are doubles (integers of
    magnitude at most 2^53) the range filter raises nothing and returns the
    table with its columns and no record at all: nothing is rejected,
    clamped or swapped, the inverted range matches no record. *)
Theorem inverted_range_is_empty :
  forall (diabetes : Bunch) (d : DataFrame) (lo hi : Z),
    well_shaped diabetes = true ->
    df diabetes = Ok d ->
    double_exact lo ->
    double_exact hi ->
    (lo > hi)%Z ->
    exists f : DataFrame,
      filtered d (lo, hi) = Ok f
      /\ records f = []
      /\ len f = 0
      /\ columns f = columns d.
Proof.
  intros diabetes d lo hi Hshape Hdf _ _ Hgt.
  pose proof (df_aligned diabetes Hshape d Hdf) as Hal.
  pose proof (df_target diabetes Hshape d Hdf) as Ht.
  pose proof (filtered_closed_form d _ Hal Ht (lo, hi)) as Hf.
  assert (Hnone : forallb negb (map (in_range (lo, hi)) (target diabetes)) = true).
  { rewrite forallb_forall. intros b Hb. apply in_map_iff in Hb as [t [<- _]].
    now rewrite in_range_inverted. }
  eexists. split; [exact Hf|]. unfold records, len, columns. simpl.
  rewrite records_of_mask, keys_map_values, !mask_none by exact Hnone.
  repeat split.
Qed.

Lemma inverted_range_is_empty_witness :
  exists f : DataFrame,
    filtered four_table (100, 50)%Z = Ok f
    /\ records f = []
    /\ len f = 0
    /\ columns f = columns four_table.
Proof.
  apply (inverted_range_is_empty four_records four_table 100 50).
  - reflexivity.
  - reflexivity.
  - unfold double_exact. simpl. lia.
  - unfold double_exact. simpl. lia.
  - lia.
Defined.

Lemma map_fixed {A : Type} (g : A -> A) (l : list A) :
  Forall (fun x => g x = x) l -> map g l = l.
Proof. induction 1 as [|x l Hx _ IH]; simpl; congruence. Qed.

Lemma col_mask_all_true (m : list bool) (c : column) :
  forallb (fun b => b) m = true -> length m = col_len c -> col_mask m c = c.
Proof.
  intros Hm Hl. destruct c; simpl in *; now rewrite mask_all_true.
Qed.

(** A mask that holds everywhere gives the frame back. *)
Lemma df_getitem_mask_all_true (f : DataFrame) (m : list bool) :
  aligned f ->
  forallb (fun b => b) m = true ->
  length m = len f ->
  {| index := mask m (index f);
     cols := map (fun nc => (fst nc, col_mask m (snd nc))) (cols f) |} = f.
Proof.
  intros Hal Hm Hl. destruct f as [idx cs]. unfold aligned, len in *.
  simpl in *. f_equal.
  - now apply mask_all_true.
  - apply map_fixed. eapply Forall_impl; [|exact Hal].
    intros [n c] Hc. simpl in *. f_equal.
    apply col_mask_all_true; congruence.
Qed.

(** Filtering a filtered frame again with the same bounds changes nothing. *)
Lemma filtered_idempotent (d : DataFrame) (ts : list Q) (r : Z * Z)
      (f : DataFrame) :
  aligned d ->
  df_getitem d "target" = Ok (FloatCol ts) ->
  filtered d r = Ok f ->
  filtered f r = Ok f.
Proof.
  intros Hal Ht Hf.
  pose proof (filtered_aligned d ts Hal Ht r f Hf) as Hal'.
  pose proof (filtered_target d ts Hal Ht r f Hf) as Ht'.
  rewrite (filtered_closed_form f _ Hal' Ht' r). f_equal.
  apply df_getitem_mask_all_true.
  - exact Hal'.
  - apply forallb_map_filter.
  - rewrite length_map. exact (target_length f _ Hal' Ht').
Qed.

(** C8.  The range filter is idempotent: for bounds [lo <= hi] within the
    global bounds, filtering the output again with the same bounds returns
    the output itself, hence the same records. *)
Theorem range_filter_idempotent :
  forall (diabetes : Bunch) (d f : DataFrame) (gmin gmax lo hi : Z),
    well_shaped diabetes = true ->
    df diabetes = Ok d ->
    min_target d = Ok gmin ->
    max_target d = Ok gmax ->
    (gmin <= lo)%Z -> (lo <= hi)%Z -> (hi <= gmax)%Z ->
    filtered d (lo, hi) = Ok f ->
    filtered f (lo, hi) = Ok f
    /\ forall f' : DataFrame,
         filtered f (lo, hi) = Ok f' -> records f' = records f.
Proof.
  intros diabetes d f gmin gmax lo hi Hshape Hdf _ _ _ _ _ Hf.
  pose proof (df_aligned diabetes Hshape d Hdf) as Hal.
  pose proof (df_target diabetes Hshape d Hdf) as Ht.
  pose proof (filtered_idempotent d _ (lo, hi) f Hal Ht Hf) as Hff.
  split; [exact Hff|].
  intros f' Hf'. congruence.
Qed.

Lemma range_filter_idempotent_witness :
  exists f : DataFrame,
    filtered four_table (50, 100)%Z = Ok f
    /\ records f <> []
    /\ filtered f (50, 100)%Z = Ok f
    /\ forall f' : DataFrame,
         filtered f (50, 100)%Z = Ok f' -> records f' = records f.
Proof.
  eexists. split; [reflexivity|]. split; [discriminate|].
  apply (range_filter_idempotent four_records four_table _ 25 100 50 100).
  - reflexivity.
  - reflexivity.
  - reflexivity.
  - reflexivity.
  - lia.
  - lia.
  - lia.
  - reflexivity.
Defined.

(** ** The derived category *)

Lemma sex_cat_male (v : Q) : sex_cat v = "male" <-> (0 < v)%Q.
Proof.
  unfold sex_cat, Qgt_bool.
  destruct (Qle_bool v 0) eqn:E; simpl.
  - apply Qle_bool_iff in E. split; [discriminate|].
    intros H. exfalso. exact (Qlt_not_le _ _ H E).
  - split; [intros _|reflexivity].
    apply Qnot_le_lt. intros H. apply Qle_bool_iff in H. congruence.
Qed.

Lemma sex_cat_female (v : Q) : sex_cat v = "female" <-> ~ (0 < v)%Q.
Proof.
  rewrite <- sex_cat_male. unfold sex_cat.
  destruct (Qgt_bool v 0); split; intros H; try reflexivity;
    try discriminate; try (intros H'; discriminate).
  exfalso. now apply H.
Qed.

(** The fields of one record under two column names sit at one position of
    the two columns. *)
Lemma record_two_fields (d : DataFrame) (n1 n2 : string) (c1 c2 : column)
      (rec : record) :
  aligned d ->
  df_getitem d n1 = Ok c1 ->
  df_getitem d n2 = Ok c2 ->
  In rec (records d) ->
  exists i : nat,
    option_map Ok (nth_error (col_cells c1) i) = Some (field rec n1)
    /\ option_map Ok (nth_error (col_cells c2) i) = Some (field rec n2).
Proof.
  intros Hal H1 H2 Hin.
  apply In_nth_error in Hin as [i Hi].
  pose proof (map_nth_error (fun r => field r n1) _ _ Hi) as E1.
  pose proof (map_nth_error (fun r => field r n2) _ _ Hi) as E2.
  rewrite (records_field d n1 c1 Hal H1), nth_error_map in E1.
  rewrite (records_field d n2 c2 Hal H2), nth_error_map in E2.
  exists i. split; assumption.
Qed.

(** C2.  Every record of the base table has exactly one category, the value
    of the pure function [sex_cat] at the record's sex feature: it is "male"
    if and only if that value is strictly greater than 0, and "female"
    otherwise; there is one record per sample. *)
Theorem derived_category_correct :
  forall (diabetes : Bunch) (d : DataFrame),
    well_shaped diabetes = true ->
    df diabetes = Ok d ->
    length (records d) = length (data diabetes)
    /\ forall rec : record,
         In rec (records d) ->
         exists v : Q,
           field rec "sex" = Ok (Num v)
           /\ field rec "sex_cat" = Ok (Str (sex_cat v))
           /\ (sex_cat v = "male" <-> (0 < v)%Q)
           /\ (sex_cat v = "female" <-> ~ (0 < v)%Q).
Proof.
  intros diabetes d Hshape Hdf.
  pose proof (df_aligned diabetes Hshape d Hdf) as Hal.
  split.
  { rewrite (records_length d Hal). exact (df_len diabetes Hshape d Hdf). }
  intros rec Hin.
  assert (Hne : data diabetes <> []).
  { intros Hdata.
    rewrite (df_no_records diabetes Hshape d Hdf Hdata) in Hin. exact Hin. }
  destruct (record_two_fields d "sex" "sex_cat" _ _ rec Hal
              (df_sex diabetes Hshape d Hdf)
              (df_sex_cat diabetes Hshape d Hdf Hne) Hin) as [i [E1 E2]].
  simpl in E1, E2.
  rewrite nth_error_map in E1. rewrite 2!nth_error_map in E2.
  destruct (nth_error (array_column (data diabetes) 1) i) as [v|];
    simpl in E1, E2; [|discriminate].
  injection E1 as E1. injection E2 as E2.
  exists v. repeat split; auto; try apply sex_cat_male; try apply sex_cat_female.
Qed.

Lemma derived_category_correct_witness :
  length (records four_table) = length (data four_records)
  /\ forall rec : record,
       In rec (records four_table) ->
       exists v : Q,
         field rec "sex" = Ok (Num v)
         /\ field rec "sex_cat" = Ok (Str (sex_cat v))
         /\ (sex_cat v = "male" <-> (0 < v)%Q)
         /\ (sex_cat v = "female" <-> ~ (0 < v)%Q).
Proof.
  apply (derived_category_correct four_records four_table).
  - reflexivity.
  - reflexivity.
Defined.

(** ** The feature catalog *)

(** The two dictionaries are inverse to each other. *)
Lemma catalog_inverse (id name : string) :
  getitem feature_name_map id = Ok name
  <-> getitem readable_to_original name = Ok id.
Proof.
  split; intros H; apply getitem_present in H; simpl in H;
    repeat (destruct H as [H|H]; [injection H as <- <-; reflexivity|]);
    contradiction.
Qed.

(** C3.  The feature catalog is a bijection over exactly ten entries: the
    ten identifiers are the keys of [feature_name_map], the ten display
    names are the keys of [readable_to_original], each identifier comes
    back from its display name and each display name from its identifier,
    and "bmi" goes with "Body Mass Index (BMI)". *)
Theorem feature_catalog_bijection :
  keys feature_name_map = diabetes_feature_names
  /\ keys readable_to_original = readable_features
  /\ length (items feature_name_map) = 10
  /\ length (items readable_to_original) = 10
  /\ NoDup (keys feature_name_map)
  /\ NoDup (keys readable_to_original)
  /\ Forall (fun id =>
               exists name,
                 getitem feature_name_map id = Ok name
                 /\ getitem readable_to_original name = Ok id)
            diabetes_feature_names
  /\ Forall (fun name =>
               exists id,
                 getitem readable_to_original name = Ok id
                 /\ getitem feature_name_map id = Ok name)
            readable_features
  /\ (forall id name : string,
        getitem feature_name_map id = Ok name
        <-> getitem readable_to_original name = Ok id)
  /\ getitem feature_name_map "bmi" = Ok "Body Mass Index (BMI)"
  /\ getitem readable_to_original "Body Mass Index (BMI)" = Ok "bmi".
Proof.
  split; [reflexivity|]. split; [reflexivity|].
  split; [reflexivity|]. split; [reflexivity|].
  split.
  { repeat (constructor; [simpl; intuition discriminate|]). constructor. }
  split.
  { repeat (constructor; [simpl; intuition discriminate|]). constructor. }
  split.
  { repeat (constructor; [eexists; split; reflexivity|]). constructor. }
  split.
  { repeat (constructor; [eexists; split; reflexivity|]). constructor. }
  split; [exact catalog_inverse|split; reflexivity].
Qed.

(** C7.  A key that is none of the ten identifiers makes the lookup in
    [feature_name_map] raise a [KeyError], which is a [LookupError]; a string
    that is none of the ten display names makes the lookup in
    [readable_to_original] raise one too, and with it the translation of a
    widget selection. *)
Theorem unknown_key_is_lookup_error :
  forall id name : string,
    ~ In id diabetes_feature_names ->
    ~ In name readable_features ->
    (exists e, getitem feature_name_map id = Raise e
               /\ is_LookupError e = true)
    /\ (exists e, getitem readable_to_original name = Raise e
                  /\ is_LookupError e = true)
    /\ (forall w : Widgets,
          x_feature_readable w = name ->
          exists e, x_feature w = Raise e /\ is_LookupError e = true)
    /\ (forall w : Widgets,
          y_feature_readable w = name ->
          exists e, y_feature w = Raise e /\ is_LookupError e = true).
Proof.
  intros id name Hid Hname.
  assert (H1 : getitem feature_name_map id = Raise (KeyError id)).
  { apply getitem_missing. exact Hid. }
  assert (H2 : getitem readable_to_original name = Raise (KeyError name)).
  { apply getitem_missing. exact Hname. }
  split; [exists (KeyError id); auto|].
  split; [exists (KeyError name); auto|].
  split; intros w Hw; exists (KeyError name); unfold x_feature, y_feature;
    rewrite Hw; auto.
Qed.

Lemma unknown_key_is_lookup_error_witness :
  (exists e, getitem feature_name_map "target" = Raise e
             /\ is_LookupError e = true)
  /\ (exists e, getitem readable_to_original "Gender" = Raise e
                /\ is_LookupError e = true)
  /\ (forall w : Widgets,
        x_feature_readable w = "Gender" ->
        exists e, x_feature w = Raise e /\ is_LookupError e = true)
  /\ (forall w : Widgets,
        y_feature_readable w = "Gender" ->
        exists e, y_feature w = Raise e /\ is_LookupError e = true).
Proof.
  apply (unknown_key_is_lookup_error "target" "Gender").
  - simpl. intuition discriminate.
  - simpl. intuition discriminate.
Defined.

(** ** The computed global bounds *)

Lemma Qmin_cases (a b : Q) :
  (pd.Qmin a b = a \/ pd.Qmin a b = b)
  /\ (pd.Qmin a b <= a)%Q /\ (pd.Qmin a b <= b)%Q.
Proof.
  unfold pd.Qmin. destruct (Qle_bool a b) eqn:E.
  - apply Qle_bool_iff in E. repeat split; auto. apply Qle_refl.
  - assert (b <= a)%Q.
    { apply Qlt_le_weak, Qnot_le_lt. intros H.
      apply Qle_bool_iff in H. congruence. }
    repeat split; auto. apply Qle_refl.
Qed.

Lemma Qmax_cases (a b : Q) :
  (pd.Qmax a b = a \/ pd.Qmax a b = b)
  /\ (a <= pd.Qmax a b)%Q /\ (b <= pd.Qmax a b)%Q.
Proof.
  unfold pd.Qmax. destruct (Qle_bool a b) eqn:E.
  - apply Qle_bool_iff in E. repeat split; auto. apply Qle_refl.
  - assert (b <= a)%Q.
    { apply Qlt_le_weak, Qnot_le_lt. intros H.
      apply Qle_bool_iff in H. congruence. }
    repeat split; auto. apply Qle_refl.
Qed.

Lemma fold_min_spec (xs : list Q) (x : Q) :
  In (fold_left pd.Qmin xs x) (x :: xs)
  /\ forall t, In t (x :: xs) -> (fold_left pd.Qmin xs x <= t)%Q.
Proof.
  revert x; induction xs as [|y xs IH]; intros x; simpl.
  - split; [now left|]. intros t [<-|[]]. apply Qle_refl.
  - destruct (IH (pd.Qmin x y)) as [Hin Hle].
    destruct (Qmin_cases x y) as [Hc [Hx Hy]].
    split.
    + destruct Hin as [Hin|Hin]; [|now right; right].
      rewrite <- Hin. destruct Hc as [->| ->]; [now left|now right; left].
    + intros t [<-|[<-|Ht]].
      * eapply Qle_trans; [apply Hle; now left|exact Hx].
      * eapply Qle_trans; [apply Hle; now left|exact Hy].
      * apply Hle. now right.
Qed.

Lemma fold_max_spec (xs : list Q) (x : Q) :
  In (fold_left pd.Qmax xs x) (x :: xs)
  /\ forall t, In t (x :: xs) -> (t <= fold_left pd.Qmax xs x)%Q.
Proof.
  revert x; induction xs as [|y xs IH]; intros x; simpl.
  - split; [now left|]. intros t [<-|[]]. apply Qle_refl.
  - destruct (IH (pd.Qmax x y)) as [Hin Hle].
    destruct (Qmax_cases x y) as [Hc [Hx Hy]].
    split.
    + destruct Hin as [Hin|Hin]; [|now right; right].
      rewrite <- Hin. destruct Hc as [->| ->]; [now left|now right; left].
    + intros t [<-|[<-|Ht]].
      * eapply Qle_trans; [exact Hx|apply Hle; now left].
      * eapply Qle_trans; [exact Hy|apply Hle; now left].
      * apply Hle. now right.
Qed.

(** The minimum of a non-empty column is one of its values and lies below
    all of them; the maximum likewise lies above. *)
Lemma Series_min_spec (xs : list Q) :
  xs <> [] ->
  exists m, Series_min xs = Fin m
            /\ In m xs /\ forall t, In t xs -> (m <= t)%Q.
Proof.
  destruct xs as [|x xs]; [congruence|]. intros _.
  exists (fold_left pd.Qmin xs x). split; [reflexivity|].
  apply fold_min_spec.
Qed.

Lemma Series_max_spec (xs : list Q) :
  xs <> [] ->
  exists m, Series_max xs = Fin m
            /\ In m xs /\ forall t, In t xs -> (t <= m)%Q.
Proof.
  destruct xs as [|x xs]; [congruence|]. intros _.
  exists (fold_left pd.Qmax xs x). split; [reflexivity|].
  apply fold_max_spec.
Qed.

(** [int] truncates toward zero: it is the floor of a non-negative value,
    the ceiling of a non-positive one, and the value itself on a whole
    number. *)
Lemma trunc_nonneg (q : Q) : (0 <= q)%Q -> (inject_Z (trunc q) <= q)%Q.
Proof.
  intros H. unfold trunc.
  assert (Hn : (0 <= Qnum q)%Z).
  { unfold Qle in H. simpl in H. lia. }
  rewrite Z.quot_div_nonneg by lia.
  pose proof (Qfloor_le q) as Hf. destruct q as [n dn]. exact Hf.
Qed.

Lemma trunc_nonpos (q : Q) : (q <= 0)%Q -> (q <= inject_Z (trunc q))%Q.
Proof.
  intros H. unfold trunc.
  assert (Hn : (Qnum q <= 0)%Z).
  { unfold Qle in H. simpl in H. lia. }
  replace (Qnum q) with (- - Qnum q)%Z by lia.
  rewrite Z.quot_opp_l by discriminate.
  rewrite Z.quot_div_nonneg by lia.
  pose proof (Qle_ceiling q) as Hc. destruct q as [n dn]. exact Hc.
Qed.

Lemma trunc_integral (q : Q) : integral q -> (inject_Z (trunc q) == q)%Q.
Proof.
  intros [k Hk]. unfold trunc.
  assert (Hn : Qnum q = (k * Zpos (Qden q))%Z).
  { unfold Qeq in Hk. simpl in Hk. lia. }
  rewrite Hn, Z.quot_mul by discriminate.
  symmetry. exact Hk.
Qed.

Lemma forallb_map {A B : Type} (p : B -> bool) (g : A -> B) (l : list A) :
  forallb p (map g l) = forallb (fun x => p (g x)) l.
Proof. induction l as [|x l IH]; simpl; congruence. Qed.

(** The filter gives the frame back exactly when every target is in range. *)
Lemma filtered_identity_iff (d : DataFrame) (ts : list Q) (r : Z * Z) :
  aligned d ->
  df_getitem d "target" = Ok (FloatCol ts) ->
  filtered d r = Ok d <-> forallb (in_range r) ts = true.
Proof.
  intros Hal Ht.
  pose proof (target_length d ts Hal Ht) as Hlen.
  rewrite (filtered_closed_form d ts Hal Ht r).
  split.
  - intros H. injection H as H.
    apply (f_equal index) in H. simpl in H.
    apply mask_eq_all_true in H; [|now rewrite length_map].
    now rewrite forallb_map in H.
  - intros H. f_equal. apply df_getitem_mask_all_true.
    + exact Hal.
    + now rewrite forallb_map.
    + now rewrite length_map.
Qed.

(** What the slider asks of its bounds. *)
Lemma slider_Ok_inv (lo hi : Z) (value state r : Z * Z) :
  slider lo hi value state = Ok r ->
  r = state
  /\ (lo < hi)%Z
  /\ validate_int_bounds lo = true
  /\ validate_int_bounds hi = true.
Proof.
  unfold slider.
  destruct (validate_int_bounds lo) eqn:E1; simpl; [|discriminate].
  destruct (validate_int_bounds hi) eqn:E2; simpl; [|discriminate].
  destruct (lo <? hi)%Z eqn:E3; [|discriminate].
  intros [= <-]. apply Z.ltb_lt in E3. auto.
Qed.

Lemma slider_accepts (lo hi : Z) (value state : Z * Z) :
  (lo < hi)%Z ->
  validate_int_bounds lo = true ->
  validate_int_bounds hi = true ->
  slider lo hi value state = Ok state.
Proof.
  intros Hlt H1 H2. unfold slider. rewrite H1, H2. simpl.
  apply Z.ltb_lt in Hlt. now rewrite Hlt.
Qed.

Lemma validate_double_exact (z : Z) :
  validate_int_bounds z = true -> double_exact z.
Proof.
  unfold validate_int_bounds, JS_MAX_SAFE_INTEGER, double_exact.
  intros H. apply andb_true_iff in H as [H1 H2].
  apply Z.leb_le in H1, H2. lia.
Qed.

(** The bounds are the truncations of the least and the greatest target. *)
Lemma bounds_inv (diabetes : Bunch) (d : DataFrame) (lo hi : Z) :
  well_shaped diabetes = true ->
  df diabetes = Ok d ->
  min_target d = Ok lo ->
  max_target d = Ok hi ->
  exists tmin tmax : Q,
    Series_min (target diabetes) = Fin tmin
    /\ Series_max (target diabetes) = Fin tmax
    /\ lo = trunc tmin
    /\ hi = trunc tmax
    /\ In tmin (target diabetes)
    /\ In tmax (target diabetes)
    /\ forall t, In t (target diabetes) -> (tmin <= t)%Q /\ (t <= tmax)%Q.
Proof.
  intros Hshape Hdf Hmin Hmax.
  unfold min_target in Hmin. unfold max_target in Hmax.
  rewrite (df_target diabetes Hshape d Hdf) in Hmin, Hmax.
  simpl in Hmin, Hmax.
  assert (Hne : target diabetes <> []).
  { intros E. rewrite E in Hmin. discriminate Hmin. }
  destruct (Series_min_spec _ Hne) as [tmin [Emin [Imin Lmin]]].
  destruct (Series_max_spec _ Hne) as [tmax [Emax [Imax Lmax]]].
  rewrite Emin in Hmin. rewrite Emax in Hmax. simpl in Hmin, Hmax.
  injection Hmin as <-. injection Hmax as <-.
  exists tmin, tmax. repeat split; auto.
Qed.

(** The bounds exist only on a dataset with a record. *)
Lemma min_target_nonempty (diabetes : Bunch) (d : DataFrame) (lo : Z) :
  well_shaped diabetes = true ->
  df diabetes = Ok d ->
  min_target d = Ok lo ->
  data diabetes <> [].
Proof.
  intros Hshape Hdf Hmin Hdata.
  assert (Ht : target diabetes = []).
  { apply length_nil_inv. rewrite (shape_target diabetes Hshape), Hdata.
    reflexivity. }
  unfold min_target in Hmin.
  rewrite (df_target diabetes Hshape d Hdf), Ht in Hmin. discriminate Hmin.
Qed.

(** C4, counterexample.  The filter with the computed bounds is not the
    identity on every non-empty dataset: on two records with targets 1/2
    and 3/2 the bounds are (0, 1), the slider accepts them, and the filter
    drops the record with target 3/2. *)
Lemma identity_at_bounds_fails :
  ~ (forall (diabetes : Bunch) (d : DataFrame) (lo hi : Z),
       well_shaped diabetes = true ->
       df diabetes = Ok d ->
       target diabetes <> [] ->
       min_target d = Ok lo ->
       max_target d = Ok hi ->
       slider lo hi (lo, hi) (lo, hi) = Ok (lo, hi) ->
       filtered d (lo, hi) = Ok d).
Proof.
  intros H.
  specialize (H half_records _ 0%Z 1%Z eq_refl eq_refl).
  assert (Hne : target half_records <> []) by discriminate.
  specialize (H Hne eq_refl eq_refl eq_refl).
  vm_compute in H. discriminate H.
Qed.

(** C4, amended.  When the slider accepts the computed bounds [int(min)]
    and [int(max)] (the first is less than the second, and both are integers
    the front end holds), the filter with them returns the base table
    unchanged exactly when [int(min) <= min] and [max <= int(max)].  [int]
    truncates toward zero, so the lower bound is safe when [min >= 0], the
    upper one when [max <= 0], and both are when every target is a whole
    number. *)
Theorem identity_at_bounds :
  forall (diabetes : Bunch) (d : DataFrame) (lo hi : Z),
    well_shaped diabetes = true ->
    df diabetes = Ok d ->
    min_target d = Ok lo ->
    max_target d = Ok hi ->
    slider lo hi (lo, hi) (lo, hi) = Ok (lo, hi) ->
    exists tmin tmax : Q,
      Series_min (target diabetes) = Fin tmin
      /\ Series_max (target diabetes) = Fin tmax
      /\ lo = trunc tmin
      /\ hi = trunc tmax
      /\ double_exact lo
      /\ double_exact hi
      /\ (filtered d (lo, hi) = Ok d
          <-> (inject_Z lo <= tmin)%Q /\ (tmax <= inject_Z hi)%Q)
      /\ ((0 <= tmin)%Q -> (inject_Z lo <= tmin)%Q)
      /\ ((tmax <= 0)%Q -> (tmax <= inject_Z hi)%Q)
      /\ ((forall t, In t (target diabetes) -> integral t) ->
          filtered d (lo, hi) = Ok d).
Proof.
  intros diabetes d lo hi Hshape Hdf Hmin Hmax Hslider.
  pose proof (df_aligned diabetes Hshape d Hdf) as Hal.
  pose proof (df_target diabetes Hshape d Hdf) as Ht.
  destruct (bounds_inv diabetes d lo hi Hshape Hdf Hmin Hmax)
    as (tmin & tmax & Emin & Emax & -> & -> & Imin & Imax & Hbetween).
  destruct (slider_Ok_inv _ _ _ _ _ Hslider) as (_ & _ & Hv1 & Hv2).
  exists tmin, tmax.
  assert (Hiff : filtered d (trunc tmin, trunc tmax) = Ok d
                 <-> (inject_Z (trunc tmin) <= tmin)%Q
                     /\ (tmax <= inject_Z (trunc tmax))%Q).
  { rewrite (filtered_identity_iff d _ _ Hal Ht), forallb_forall.
    unfold in_range. simpl. split.
    - intros H. split.
      + specialize (H _ Imin). apply andb_true_iff in H as [H _].
        now apply Qle_bool_iff.
      + specialize (H _ Imax). apply andb_true_iff in H as [_ H].
        now apply Qle_bool_iff.
    - intros [H1 H2] t Hin. apply andb_true_iff.
      split; apply Qle_bool_iff.
      + eapply Qle_trans; [exact H1|now apply Hbetween].
      + eapply Qle_trans; [now apply Hbetween|exact H2]. }
  split; [exact Emin|]. split; [exact Emax|].
  split; [reflexivity|]. split; [reflexivity|].
  split; [now apply validate_double_exact|].
  split; [now apply validate_double_exact|].
  split; [exact Hiff|].
  split; [apply trunc_nonneg|].
  split; [apply trunc_nonpos|].
  intros Hint. apply Hiff. split.
  - rewrite (trunc_integral tmin) by auto. apply Qle_refl.
  - rewrite (trunc_integral tmax) by auto. apply Qle_refl.
Qed.

Lemma identity_at_bounds_witness :
  exists tmin tmax : Q,
    Series_min (target four_records) = Fin tmin
    /\ Series_max (target four_records) = Fin tmax
    /\ 25%Z = trunc tmin
    /\ 100%Z = trunc tmax
    /\ double_exact 25
    /\ double_exact 100
    /\ (filtered four_table (25, 100)%Z = Ok four_table
        <-> (inject_Z 25 <= tmin)%Q /\ (tmax <= inject_Z 100)%Q)
    /\ ((0 <= tmin)%Q -> (inject_Z 25 <= tmin)%Q)
    /\ ((tmax <= 0)%Q -> (tmax <= inject_Z 100)%Q)
    /\ ((forall t, In t (target four_records) -> integral t) ->
        filtered four_table (25, 100)%Z = Ok four_table).
Proof.
  apply (identity_at_bounds four_records four_table 25 100).
  - reflexivity.
  - reflexivity.
  - reflexivity.
  - reflexivity.
  - reflexivity.
Defined.

(** ** The filtered view of the base table *)

Lemma bind_Ok_inv {A B : Type} (c : result A) (k : A -> result B) (b : B) :
  (x <- c ;; k x) = Ok b -> exists a, c = Ok a /\ k a = Ok b.
Proof. destruct c as [a|e]; simpl; [eauto|discriminate]. Qed.

Section FilteredView.

Variable diabetes : Bunch.
Hypothesis Hshape : well_shaped diabetes = true.
Variable d : DataFrame.
Hypothesis Hdf : df diabetes = Ok d.
Hypothesis Hne : data diabetes <> [].
Variable r : Z * Z.
Variable f : DataFrame.
Hypothesis Hf : filtered d r = Ok f.

Let m : list bool := map (in_range r) (target diabetes).

(** The filtered view, column by column. *)
Lemma filtered_view_closed_form :
  f = {| index := mask m (seq 0 (length (data diabetes)));
         cols :=
           [ ("age", FloatCol (mask m (array_column (data diabetes) 0)));
             ("sex", FloatCol (mask m (array_column (data diabetes) 1)));
             ("bmi", FloatCol (mask m (array_column (data diabetes) 2)));
             ("bp", FloatCol (mask m (array_column (data diabetes) 3)));
             ("s1", FloatCol (mask m (array_column (data diabetes) 4)));
             ("s2", FloatCol (mask m (array_column (data diabetes) 5)));
             ("s3", FloatCol (mask m (array_column (data diabetes) 6)));
             ("s4", FloatCol (mask m (array_column (data diabetes) 7)));
             ("s5", FloatCol (mask m (array_column (data diabetes) 8)));
             ("s6", FloatCol (mask m (array_column (data diabetes) 9)));
             ("target", FloatCol (mask m (target diabetes)));
             ("sex_cat",
              ObjCol (mask m (map sex_cat (array_column (data diabetes) 1)))) ] |}.
Proof.
  pose proof (df_aligned diabetes Hshape d Hdf) as Hal.
  pose proof (df_target diabetes Hshape d Hdf) as Ht.
  rewrite (filtered_closed_form d _ Hal Ht r) in Hf.
  injection Hf as <-.
  rewrite (df_closed_form_records diabetes Hshape d Hdf Hne). reflexivity.
Qed.

(** With no row left every column is empty. *)
Lemma filtered_view_empty :
  len f = 0 ->
  f = {| index := [];
         cols :=
           [ ("age", FloatCol []); ("sex", FloatCol []); ("bmi", FloatCol []);
             ("bp", FloatCol []); ("s1", FloatCol []); ("s2", FloatCol []);
             ("s3", FloatCol []); ("s4", FloatCol []); ("s5", FloatCol []);
             ("s6", FloatCol []); ("target", FloatCol []);
             ("sex_cat", ObjCol []) ] |}.
Proof.
  intros Hlen. rewrite filtered_view_closed_form in Hlen |- *.
  unfold len in Hlen. simpl in Hlen.
  assert (Hz : forall (A : Type) (xs : list A),
             length xs = length (data diabetes) -> mask m xs = []).
  { intros A xs Hxs. apply length_nil_inv. rewrite <- Hlen.
    apply mask_length. now rewrite length_seq. }
  rewrite (Hz nat) by apply length_seq.
  rewrite (Hz Q (target diabetes)) by apply (shape_target diabetes Hshape).
  rewrite (Hz string) by (unfold array_column; now rewrite !length_map).
  rewrite !(Hz Q (array_column _ _)) by (unfold array_column; now rewrite length_map).
  reflexivity.
Qed.

End FilteredView.

(** ** Summaries of an empty view *)

(** C6.  When the filtered view of a dataset with at least one record has
    no record (the bounds being integers that are doubles, as the values of
    the slider are), every summary still succeeds: the row count is 0, the
    two means are not-a-number (shown as "nan"), the descriptive statistics
    of every numeric column are a count of zero and not-a-number elsewhere,
    and the table of counts by gender is empty. *)
Theorem empty_view_summaries :
  forall (diabetes : Bunch) (d : DataFrame) (lo hi : Z) (f : DataFrame),
    well_shaped diabetes = true ->
    df diabetes = Ok d ->
    data diabetes <> [] ->
    double_exact lo ->
    double_exact hi ->
    filtered d (lo, hi) = Ok f ->
    len f = 0 ->
    metrics f = Ok {| filtered_rows := 0;
                      mean_target := "nan";
                      mean_bmi := "nan" |}
    /\ column_mean f "target" = Ok NaN
    /\ column_mean f "bmi" = Ok NaN
    /\ (exists zero : Q,
          (zero == 0)%Q
          /\ descriptive_statistics f
             = map (fun name =>
                      (name,
                       [ ("count", Fin zero); ("mean", NaN); ("std", NaN);
                         ("min", NaN); ("25%", NaN); ("50%", NaN);
                         ("75%", NaN); ("max", NaN) ]))
                   (diabetes_feature_names ++ ["target"]))
    /\ counts_by_gender f = Ok {| header := ("Gender", "Count"); body := [] |}
    /\ raw_rows f = f.
Proof.
  intros diabetes d lo hi f Hshape Hdf Hne _ _ Hf Hlen.
  rewrite (filtered_view_empty diabetes Hshape d Hdf Hne _ f Hf Hlen).
  split; [reflexivity|]. split; [reflexivity|]. split; [reflexivity|].
  split; [|split; reflexivity].
  exists (round3_fin (of_nat 0)). split; reflexivity.
Qed.

Lemma empty_view_summaries_witness :
  exists f : DataFrame,
    filtered four_table (51, 52)%Z = Ok f
    /\ metrics f = Ok {| filtered_rows := 0;
                         mean_target := "nan";
                         mean_bmi := "nan" |}
    /\ column_mean f "target" = Ok NaN
    /\ column_mean f "bmi" = Ok NaN
    /\ (exists zero : Q,
          (zero == 0)%Q
          /\ descriptive_statistics f
             = map (fun name =>
                      (name,
                       [ ("count", Fin zero); ("mean", NaN); ("std", NaN);
                         ("min", NaN); ("25%", NaN); ("50%", NaN);
                         ("75%", NaN); ("max", NaN) ]))
                   (diabetes_feature_names ++ ["target"]))
    /\ counts_by_gender f = Ok {| header := ("Gender", "Count"); body := [] |}
    /\ raw_rows f = f.
Proof.
  eexists. split; [reflexivity|].
  apply (empty_view_summaries four_records four_table 51 52).
  - reflexivity.
  - reflexivity.
  - discriminate.
  - unfold double_exact. simpl. lia.
  - unfold double_exact. simpl. lia.
  - reflexivity.
  - reflexivity.
Defined.

(** ** The pairwise matrix *)

(** C5, counterexample.  The matrix is not drawn over the two chosen
    features: with the selections "Age" and "Sex" its dimensions are still
    BMI, blood pressure and target. *)
Lemma pairwise_ignores_selection :
  ~ (forall (diabetes : Bunch) (w : Widgets) (page : Page),
       well_shaped diabetes = true ->
       run diabetes w = Ok page ->
       matrix_dimensions (page_pair page)
       = [x_feature_readable w; y_feature_readable w; "target"]).
Proof.
  intros H.
  specialize (H four_records
                {| x_feature_readable := "Age";
                   y_feature_readable := "Sex";
                   target_range := (25, 100)%Z;
                   colour_by_sex := true;
                   show_raw := false |}
                _ eq_refl eq_refl).
  vm_compute in H. discriminate H.
Qed.

(** C5, amended.  Whatever the two axis selections are, a run that succeeds
    draws the pairwise matrix over exactly three columns of the filtered
    view, which are always [bmi], [bp] and [target], shown under the names
    "Body Mass Index (BMI)", "Blood Pressure" and "target"; these are the
    chosen features exactly when the selections are those two names. *)
Theorem pairwise_matrix_fixed_columns :
  forall (diabetes : Bunch) (w : Widgets) (page : Page),
    well_shaped diabetes = true ->
    run diabetes w = Ok page ->
    exists (d f : DataFrame) (cb cp ct : column) (x y : string),
      df diabetes = Ok d
      /\ filtered d (target_range w) = Ok f
      /\ df_getitem f "bmi" = Ok cb
      /\ df_getitem f "bp" = Ok cp
      /\ df_getitem f "target" = Ok ct
      /\ page_pair page
         = {| matrix_frame :=
                {| index := index f;
                   cols := [ ("Body Mass Index (BMI)", cb);
                             ("Blood Pressure", cp);
                             ("target", ct) ] |};
              matrix_dimensions :=
                ["Body Mass Index (BMI)"; "Blood Pressure"; "target"] |}
      /\ x_feature w = Ok x
      /\ y_feature w = Ok y
      /\ (pair_feats = [x; y; "target"]
          <-> x_feature_readable w = "Body Mass Index (BMI)"
              /\ y_feature_readable w = "Blood Pressure").
Proof.
  intros diabetes w page Hshape Hrun. unfold run in Hrun.
  apply bind_Ok_inv in Hrun as [d [Hdf Hrun]].
  apply bind_Ok_inv in Hrun as [x [Hx Hrun]].
  apply bind_Ok_inv in Hrun as [y [Hy Hrun]].
  apply bind_Ok_inv in Hrun as [gmin [Hmin Hrun]].
  apply bind_Ok_inv in Hrun as [gmax [_ Hrun]].
  apply bind_Ok_inv in Hrun as [r [Hr Hrun]].
  apply slider_Ok_inv in Hr as [-> _].
  apply bind_Ok_inv in Hrun as [f [Hf Hrun]].
  apply bind_Ok_inv in Hrun as [mt [_ Hrun]].
  apply bind_Ok_inv in Hrun as [sc [_ Hrun]].
  apply bind_Ok_inv in Hrun as [h [_ Hrun]].
  apply bind_Ok_inv in Hrun as [p [Hp Hrun]].
  apply bind_Ok_inv in Hrun as [ct [_ Hrun]].
  injection Hrun as <-. simpl.
  pose proof (min_target_nonempty diabetes d gmin Hshape Hdf Hmin) as Hne.
  pose proof (filtered_view_closed_form diabetes Hshape d Hdf Hne _ f Hf)
    as Ef.
  rewrite Ef in Hp. injection Hp as <-.
  exists d, f. do 3 eexists. exists x, y.
  split; [exact Hdf|]. split; [exact Hf|].
  split; [rewrite Ef; reflexivity|].
  split; [rewrite Ef; reflexivity|].
  split; [rewrite Ef; reflexivity|].
  split; [rewrite Ef; reflexivity|].
  split; [exact Hx|]. split; [exact Hy|].
  unfold x_feature in Hx. unfold y_feature in Hy.
  apply catalog_inverse in Hx, Hy. unfold pair_feats.
  split.
  - intros [= <- <-]. split.
    + change (getitem feature_name_map "bmi"
              = Ok (x_feature_readable w)) in Hx.
      vm_compute in Hx. now injection Hx.
    + change (getitem feature_name_map "bp"
              = Ok (y_feature_readable w)) in Hy.
      vm_compute in Hy. now injection Hy.
  - intros [Ex Ey]. rewrite Ex in Hx. rewrite Ey in Hy.
    apply catalog_inverse in Hx, Hy.
    vm_compute in Hx, Hy. injection Hx as <-. injection Hy as <-.
    reflexivity.
Qed.

Lemma pairwise_matrix_fixed_columns_witness :
  exists page : Page,
    run four_records
        {| x_feature_readable := "Age";
           y_feature_readable := "Sex";
           target_range := (50, 100)%Z;
           colour_by_sex := true;
           show_raw := false |} = Ok page
    /\ matrix_dimensions (page_pair page)
       = ["Body Mass Index (BMI)"; "Blood Pressure"; "target"].
Proof.
  eexists. split; [reflexivity|].
  destruct (pairwise_matrix_fixed_columns four_records
              {| x_feature_readable := "Age";
                 y_feature_readable := "Sex";
                 target_range := (50, 100)%Z;
                 colour_by_sex := true;
                 show_raw := false |} _ eq_refl eq_refl)
    as [d [f [cb [cp [ct [x [y [_ [_ [_ [_ [_ [Hp _]]]]]]]]]]]]].
  rewrite Hp. reflexivity.
Defined.

(** ** The four-record scenario *)

Lemma length_four {A : Type} (l : list A) :
  length l = 4 -> exists a b c e, l = [a; b; c; e].
Proof.
  destruct l as [|a [|b [|c [|e [|x l]]]]]; try discriminate.
  intros _. now exists a, b, c, e.
Qed.

(** C9.  On a dataset of four records with targets 25, 50, 75, 100 and sex
    features of signs +, -, +, -, the filter with bounds (50, 100) returns
    the records labelled 1, 2, 3 with targets 50, 75, 100 and categories
    "female", "male", "female"; the row count is 3 and the mean target is
    75, shown as "75.00". *)
Theorem scenario_four_records :
  forall (diabetes : Bunch) (d : DataFrame) (s1 s2 s3 s4 : Q),
    well_shaped diabetes = true ->
    df diabetes = Ok d ->
    target diabetes = [25; 50; 75; 100]%Q ->
    array_column (data diabetes) 1 = [s1; s2; s3; s4] ->
    (0 < s1)%Q -> (s2 < 0)%Q -> (0 < s3)%Q -> (s4 < 0)%Q ->
    exists (f : DataFrame) (mt : Metrics) (mean : Q),
      filtered d (50, 100)%Z = Ok f
      /\ index f = [1; 2; 3]
      /\ df_getitem f "target" = Ok (FloatCol [50; 75; 100]%Q)
      /\ df_getitem f "sex_cat" = Ok (ObjCol ["female"; "male"; "female"])
      /\ map (fun rec => (fst rec, field rec "target", field rec "sex_cat"))
             (records f)
         = [ (1, Ok (Num 50), Ok (Str "female"));
             (2, Ok (Num 75), Ok (Str "male"));
             (3, Ok (Num 100), Ok (Str "female")) ]
      /\ len f = 3
      /\ column_mean f "target" = Ok (Fin mean)
      /\ (mean == 75)%Q
      /\ metrics f = Ok mt
      /\ filtered_rows mt = 3
      /\ mean_target mt = "75.00".
Proof.
  intros diabetes d s1 s2 s3 s4 Hshape Hdf Htarget Hsex P1 N2 P3 N4.
  pose proof (df_aligned diabetes Hshape d Hdf) as Hal.
  pose proof (df_target diabetes Hshape d Hdf) as Ht.
  pose proof (filtered_closed_form d _ Hal Ht (50, 100)%Z) as Hf.
  assert (Hne : data diabetes <> []).
  { intros E. pose proof (shape_target diabetes Hshape) as L.
    rewrite Htarget, E in L. discriminate L. }
  pose proof (filtered_view_closed_form diabetes Hshape d Hdf Hne _ _ Hf)
    as Ef.
  pose proof (shape_target diabetes Hshape) as Hlen.
  rewrite Htarget in Hlen. simpl in Hlen. symmetry in Hlen.
  destruct (length_four _ Hlen) as [r1 [r2 [r3 [r4 Hdata]]]].
  rewrite Hdata in Hsex. simpl in Hsex.
  injection Hsex as E1 E2 E3 E4.
  assert (F2 : sex_cat s2 = "female").
  { apply sex_cat_female. intros H.
    exact (Qlt_irrefl _ (Qlt_trans _ _ _ H N2)). }
  assert (F3 : sex_cat s3 = "male") by now apply sex_cat_male.
  assert (F4 : sex_cat s4 = "female").
  { apply sex_cat_female. intros H.
    exact (Qlt_irrefl _ (Qlt_trans _ _ _ H N4)). }
  rewrite Ef in Hf. clear Ef. rewrite Htarget, Hdata in Hf. simpl in Hf.
  rewrite E2, E3, E4, F2, F3, F4 in Hf.
  eexists. eexists. eexists.
  split; [exact Hf|].
  split; [reflexivity|]. split; [reflexivity|]. split; [reflexivity|].
  split; [reflexivity|]. split; [reflexivity|]. split; [reflexivity|].
  split; [reflexivity|]. split; [reflexivity|]. split; reflexivity.
Qed.

Lemma scenario_four_records_witness :
  exists (f : DataFrame) (mt : Metrics) (mean : Q),
    filtered four_table (50, 100)%Z = Ok f
    /\ index f = [1; 2; 3]
    /\ df_getitem f "target" = Ok (FloatCol [50; 75; 100]%Q)
    /\ df_getitem f "sex_cat" = Ok (ObjCol ["female"; "male"; "female"])
    /\ map (fun rec => (fst rec, field rec "target", field rec "sex_cat"))
           (records f)
       = [ (1, Ok (Num 50), Ok (Str "female"));
           (2, Ok (Num 75), Ok (Str "male"));
           (3, Ok (Num 100), Ok (Str "female")) ]
    /\ len f = 3
    /\ column_mean f "target" = Ok (Fin mean)
    /\ (mean == 75)%Q
    /\ metrics f = Ok mt
    /\ filtered_rows mt = 3
    /\ mean_target mt = "75.00".
Proof.
  apply (scenario_four_records four_records four_table
           (1 # 20) (-1 # 20) (1 # 20) (-1 # 20)).
  - reflexivity.
  - reflexivity.
  - reflexivity.
  - reflexivity.
  - reflexivity.
  - reflexivity.
  - reflexivity.
  - reflexivity.
Defined.

(** * Further properties of the script *)

(** ** The select boxes *)

(** Every option of the two select boxes translates to the name of a
    feature column, and that name translates back to the option. *)
Lemma option_translates (name : string) :
  In name readable_features ->
  exists id : string,
    getitem readable_to_original name = Ok id
    /\ In id diabetes_feature_names
    /\ getitem feature_name_map id = Ok name.
Proof.
  intros H. simpl in H.
  repeat (destruct H as [<-|H];
          [eexists; split; [reflexivity|]; split;
           [simpl; tauto|reflexivity]|]).
  contradiction.
Qed.

(** ** The stages of a run on the base table *)

Section ViewStages.

Variable diabetes : Bunch.
Hypothesis Hshape : well_shaped diabetes = true.
Variable d : DataFrame.
Hypothesis Hdf : df diabetes = Ok d.
Variable r : Z * Z.
Variable f : DataFrame.
Hypothesis Hf : filtered d r = Ok f.

Lemma view_len : len f = length (filter (in_range r) (target diabetes)).
Proof.
  pose proof (df_aligned diabetes Hshape d Hdf) as Hal.
  pose proof (df_target diabetes Hshape d Hdf) as Ht.
  pose proof Hf as Hf'. rewrite (filtered_closed_form d _ Hal Ht r) in Hf'.
  injection Hf' as <-.
  unfold len. simpl. rewrite <- mask_filter.
  apply mask_length. symmetry. exact (target_length d _ Hal Ht).
Qed.

Lemma view_target :
  df_getitem f "target"
  = Ok (FloatCol (filter (in_range r) (target diabetes))).
Proof.
  exact (filtered_target d _ (df_aligned diabetes Hshape d Hdf)
           (df_target diabetes Hshape d Hdf) r f Hf).
Qed.

Lemma view_aligned : aligned f.
Proof.
  exact (filtered_aligned d _ (df_aligned diabetes Hshape d Hdf)
           (df_target diabetes Hshape d Hdf) r f Hf).
Qed.

Lemma view_feature (id : string) :
  In id diabetes_feature_names ->
  exists xs : list Q,
    df_getitem d id = Ok (FloatCol xs)
    /\ df_getitem f id
       = Ok (FloatCol (mask (map (in_range r) (target diabetes)) xs)).
Proof.
  intros H.
  pose proof (df_aligned diabetes Hshape d Hdf) as Hal.
  pose proof (df_target diabetes Hshape d Hdf) as Ht.
  pose proof Hf as Hf'. rewrite (filtered_closed_form d _ Hal Ht r) in Hf'.
  injection Hf' as <-.
  assert (Hd : exists xs, df_getitem d id = Ok (FloatCol xs)).
  { pose proof Hdf as Hd. rewrite (df_closed_form diabetes Hshape) in Hd.
    injection Hd as <-. simpl in H.
    repeat (destruct H as [<-|H]; [eexists; reflexivity|]).
    contradiction. }
  destruct Hd as [xs Hd]. exists xs. split; [exact Hd|].
  unfold df_getitem in *. simpl.
  rewrite getitem_map_values, Hd. reflexivity.
Qed.

Lemma view_metrics :
  exists mb : float,
    column_mean f "bmi" = Ok mb
    /\ metrics f
       = Ok {| filtered_rows := len f;
               mean_target :=
                 format_2f (Series_mean (filter (in_range r) (target diabetes)));
               mean_bmi := format_2f mb |}.
Proof.
  destruct (view_feature "bmi") as [xs [_ Hb]]; [simpl; tauto|].
  eexists. unfold metrics, column_mean. rewrite view_target, Hb.
  split; reflexivity.
Qed.

Lemma view_hist :
  fig_hist f
  = Ok {| hist_x := FloatCol (filter (in_range r) (target diabetes));
          hist_nbins := 30 |}.
Proof. unfold fig_hist, px_column. now rewrite view_target. Qed.

Lemma view_pair :
  exists cb cp : column,
    df_getitem f "bmi" = Ok cb
    /\ df_getitem f "bp" = Ok cp
    /\ fig_pair f
       = Ok {| matrix_frame :=
                 {| index := index f;
                    cols :=
                      [ ("Body Mass Index (BMI)", cb);
                        ("Blood Pressure", cp);
                        ("target",
                         FloatCol (filter (in_range r) (target diabetes))) ] |};
               matrix_dimensions :=
                 ["Body Mass Index (BMI)"; "Blood Pressure"; "target"] |}.
Proof.
  destruct (view_feature "bmi") as [xb [_ Hb]]; [simpl; tauto|].
  destruct (view_feature "bp") as [xp [_ Hp]]; [simpl; tauto|].
  do 2 eexists. split; [exact Hb|]. split; [exact Hp|].
  pose proof view_target as Ht.
  unfold fig_pair, small_df, df_getitem_list, pair_feats. simpl.
  unfold df_getitem in Hb, Hp, Ht. rewrite Hb, Hp, Ht. reflexivity.
Qed.

(** The category column of the view: the strings, or a float column with
    no value when the dataset has no record. *)
Lemma view_sex_cat_cases :
  (data diabetes = []
   /\ records f = []
   /\ df_getitem f "sex_cat" = Ok (FloatCol []))
  \/ (data diabetes <> []
      /\ df_getitem f "sex_cat"
         = Ok (ObjCol (mask (map (in_range r) (target diabetes))
                            (map sex_cat (array_column (data diabetes) 1))))).
Proof.
  destruct (data diabetes) as [|row rows] eqn:Hdata.
  - left. split; [reflexivity|].
    pose proof (df_aligned diabetes Hshape d Hdf) as Hal.
    pose proof (df_target diabetes Hshape d Hdf) as Ht.
    split.
    + apply length_nil_inv. rewrite (records_length f view_aligned), view_len.
      assert (E : target diabetes = []).
      { apply length_nil_inv.
        rewrite (shape_target diabetes Hshape), Hdata. reflexivity. }
      rewrite E. reflexivity.
    + pose proof Hf as Hf'.
      rewrite (filtered_closed_form d _ Hal Ht r) in Hf'.
      injection Hf' as <-.
      pose proof Hdf as Hd. rewrite (df_closed_form diabetes Hshape) in Hd.
      injection Hd as <-. rewrite Hdata. unfold df_getitem. simpl.
      now rewrite mask_nil_r.
  - right. assert (Hne : data diabetes <> []) by (rewrite Hdata; discriminate).
    split; [rewrite <- Hdata; exact Hne|]. rewrite <- Hdata.
    rewrite (filtered_view_closed_form diabetes Hshape d Hdf Hne r f Hf).
    reflexivity.
Qed.

Lemma view_counts :
  counts_by_gender f
  = Ok {| header := ("Gender", "Count");
          body := value_counts
                    (mask (map (in_range r) (target diabetes))
                          (map sex_cat (array_column (data diabetes) 1))) |}.
Proof.
  unfold counts_by_gender.
  destruct view_sex_cat_cases as [[Hdata [_ E]]|[_ E]]; rewrite E.
  - rewrite Hdata. simpl. now rewrite mask_nil_r.
  - reflexivity.
Qed.

(** The categories of the records of the view are the values of its
    category column. *)
Lemma view_sex_cat_fields :
  map (fun rec => field rec "sex_cat") (records f)
  = map (fun c => Ok (Str c))
        (mask (map (in_range r) (target diabetes))
              (map sex_cat (array_column (data diabetes) 1))).
Proof.
  destruct view_sex_cat_cases as [[Hdata [Hrec _]]|[_ E]].
  - rewrite Hrec, Hdata. simpl. now rewrite mask_nil_r.
  - rewrite (records_field f "sex_cat" _ view_aligned E). simpl.
    now rewrite map_map.
Qed.

Hypothesis Hne : data diabetes <> [].

Lemma view_sex_cat :
  df_getitem f "sex_cat"
  = Ok (ObjCol (mask (map (in_range r) (target diabetes))
                     (map sex_cat (array_column (data diabetes) 1)))).
Proof.
  rewrite (filtered_view_closed_form diabetes Hshape d Hdf Hne r f Hf).
  reflexivity.
Qed.

Lemma view_scatter (x y : string) (by_sex : bool) :
  In x diabetes_feature_names ->
  In y diabetes_feature_names ->
  exists (lx ly : string) (cx cy : column) (cc : column),
    getitem feature_name_map x = Ok lx
    /\ getitem feature_name_map y = Ok ly
    /\ df_getitem f x = Ok cx
    /\ df_getitem f y = Ok cy
    /\ df_getitem f "sex_cat" = Ok cc
    /\ fig_scatter f x y by_sex
       = Ok {| scatter_x := cx;
               scatter_y := cy;
               scatter_color := if by_sex then Some cc else None;
               scatter_labels :=
                 of_items [(x, lx); (y, ly); ("sex_cat", "Gender")];
               scatter_title := lx ++ " vs " ++ ly |}.
Proof.
  intros Hx Hy.
  destruct (view_feature x Hx) as [xs [_ Hcx]].
  destruct (view_feature y Hy) as [ys [_ Hcy]].
  assert (Hlx : exists lx, getitem feature_name_map x = Ok lx).
  { simpl in Hx.
    repeat (destruct Hx as [<-|Hx]; [eexists; reflexivity|]).
    contradiction. }
  assert (Hly : exists ly, getitem feature_name_map y = Ok ly).
  { simpl in Hy.
    repeat (destruct Hy as [<-|Hy]; [eexists; reflexivity|]).
    contradiction. }
  destruct Hlx as [lx Hlx]. destruct Hly as [ly Hly].
  exists lx, ly. do 3 eexists.
  split; [exact Hlx|]. split; [exact Hly|].
  split; [exact Hcx|]. split; [exact Hcy|].
  split; [exact view_sex_cat|].
  unfold fig_scatter, px_column.
  rewrite Hlx, Hly, Hcx, Hcy, view_sex_cat.
  destruct by_sex; reflexivity.
Qed.


End ViewStages.

(** ** Whole runs *)

(** A run that succeeds went through every stage. *)
Lemma run_Ok_inv (diabetes : Bunch) (w : Widgets) (page : Page) :
  run diabetes w = Ok page ->
  exists (d : DataFrame) (x y : string) (gmin gmax : Z) (f : DataFrame)
         (m : Metrics) (sc : Scatter) (h : Histogram) (p : ScatterMatrix)
         (ct : CountTable),
    df diabetes = Ok d
    /\ x_feature w = Ok x
    /\ y_feature w = Ok y
    /\ min_target d = Ok gmin
    /\ max_target d = Ok gmax
    /\ slider gmin gmax (gmin, gmax) (target_range w) = Ok (target_range w)
    /\ filtered d (target_range w) = Ok f
    /\ metrics f = Ok m
    /\ fig_scatter f x y (colour_by_sex w) = Ok sc
    /\ fig_hist f = Ok h
    /\ fig_pair f = Ok p
    /\ counts_by_gender f = Ok ct
    /\ page = {| page_metrics := m;
                 page_scatter := sc;
                 page_hist := h;
                 page_pair := p;
                 page_statistics := descriptive_statistics f;
                 page_counts := ct;
                 page_raw := if show_raw w then Some (raw_rows f) else None |}.
Proof.
  unfold run. intros H.
  apply bind_Ok_inv in H as [d [Hd H]].
  apply bind_Ok_inv in H as [x [Hx H]].
  apply bind_Ok_inv in H as [y [Hy H]].
  apply bind_Ok_inv in H as [gmin [Hmin H]].
  apply bind_Ok_inv in H as [gmax [Hmax H]].
  apply bind_Ok_inv in H as [r [Hr H]].
  pose proof (slider_Ok_inv _ _ _ _ _ Hr) as [Er _]. subst r.
  apply bind_Ok_inv in H as [f [Hf H]].
  apply bind_Ok_inv in H as [m [Hm H]].
  apply bind_Ok_inv in H as [sc [Hsc H]].
  apply bind_Ok_inv in H as [h [Hh H]].
  apply bind_Ok_inv in H as [p [Hp H]].
  apply bind_Ok_inv in H as [ct [Hct H]].
  injection H as <-.
  exists d, x, y, gmin, gmax, f, m, sc, h, p, ct. repeat split; assumption.
Qed.

(** A run whose selections are among the options and whose slider accepts
    the bounds goes through. *)
Lemma run_completes (diabetes : Bunch) (d : DataFrame) (w : Widgets)
      (gmin gmax : Z) :
  well_shaped diabetes = true ->
  df diabetes = Ok d ->
  min_target d = Ok gmin ->
  max_target d = Ok gmax ->
  slider gmin gmax (gmin, gmax) (target_range w) = Ok (target_range w) ->
  In (x_feature_readable w) readable_features ->
  In (y_feature_readable w) readable_features ->
  exists page : Page, run diabetes w = Ok page.
Proof.
  intros Hshape Hdf Hmin Hmax Hslider Hxr Hyr.
  pose proof (min_target_nonempty diabetes d gmin Hshape Hdf Hmin) as Hne.
  destruct (option_translates _ Hxr) as [x [Hx [Hxin _]]].
  destruct (option_translates _ Hyr) as [y [Hy [Hyin _]]].
  pose proof (filtered_closed_form d _ (df_aligned diabetes Hshape d Hdf)
                (df_target diabetes Hshape d Hdf) (target_range w)) as Hf.
  match type of Hf with _ = Ok ?t => set (f := t) in * end.
  destruct (view_metrics diabetes Hshape d Hdf _ f Hf) as [mb [_ Hm]].
  destruct (view_scatter diabetes Hshape d Hdf _ f Hf Hne x y
              (colour_by_sex w) Hxin Hyin)
    as [lx [ly [cx [cy [cc [_ [_ [_ [_ [_ Hsc]]]]]]]]]].
  destruct (view_pair diabetes Hshape d Hdf _ f Hf) as [cb [cp [_ [_ Hp]]]].
  unfold run, x_feature, y_feature.
  rewrite Hdf. cbv beta iota delta [Py.bind].
  rewrite Hx, Hy, Hmin, Hmax, Hslider, Hf, Hm, Hsc,
    (view_hist diabetes Hshape d Hdf _ f Hf), Hp,
    (view_counts diabetes Hshape d Hdf _ f Hf).
  eexists. reflexivity.
Qed.

(** X2.  On a dataset of the bundled shape with no record the table is
    built, but both global bounds raise [ValueError] (the minimum of no
    value is not-a-number, which [int] refuses), and so does every run whose
    selections are options of the select boxes. *)
Theorem empty_dataset_raises :
  forall (diabetes : Bunch) (d : DataFrame) (w : Widgets),
    well_shaped diabetes = true ->
    df diabetes = Ok d ->
    data diabetes = [] ->
    In (x_feature_readable w) readable_features ->
    In (y_feature_readable w) readable_features ->
    min_target d = Raise ValueError
    /\ max_target d = Raise ValueError
    /\ run diabetes w = Raise ValueError.
Proof.
  intros diabetes d w Hshape Hdf Hdata Hxr Hyr.
  assert (Ht : target diabetes = []).
  { apply length_nil_inv. rewrite (shape_target diabetes Hshape), Hdata.
    reflexivity. }
  assert (Hmin : min_target d = Raise ValueError).
  { unfold min_target. rewrite (df_target diabetes Hshape d Hdf), Ht.
    reflexivity. }
  assert (Hmax : max_target d = Raise ValueError).
  { unfold max_target. rewrite (df_target diabetes Hshape d Hdf), Ht.
    reflexivity. }
  split; [exact Hmin|]. split; [exact Hmax|].
  destruct (option_translates _ Hxr) as [x [Hx _]].
  destruct (option_translates _ Hyr) as [y [Hy _]].
  unfold run, x_feature, y_feature. rewrite Hdf, Hx, Hy.
  cbv beta iota delta [Py.bind]. rewrite Hmin. reflexivity.
Qed.

Lemma empty_dataset_raises_witness :
  exists d : DataFrame,
    df no_records = Ok d
    /\ min_target d = Raise ValueError
    /\ max_target d = Raise ValueError
    /\ run no_records
           {| x_feature_readable := "Age";
              y_feature_readable := "Sex";
              target_range := (0, 0)%Z;
              colour_by_sex := true;
              show_raw := false |} = Raise ValueError.
Proof.
  eexists. split; [reflexivity|].
  apply (empty_dataset_raises no_records).
  - reflexivity.
  - reflexivity.
  - reflexivity.
  - simpl. tauto.
  - simpl. tauto.
Defined.

(** ** Counting the values of a column *)

Lemma count_of_filter (s : string) (xs : list string) :
  count_of s xs = length (filter (fun x => String.eqb x s) xs).
Proof.
  induction xs as [|x xs IH]; simpl; [reflexivity|].
  destruct (String.eqb x s); simpl; now rewrite IH.
Qed.

Lemma count_of_pos (s : string) (xs : list string) :
  0 < count_of s xs <-> In s xs.
Proof.
  induction xs as [|x xs IH]; simpl; [lia|].
  destruct (String.eqb_spec x s) as [->|Hne]; simpl.
  - split; [now left|lia].
  - rewrite IH. split; [now right|]. intros [H|H]; [contradiction|exact H].
Qed.

Lemma unique_In (s : string) (xs : list string) :
  In s (unique xs) <-> In s xs.
Proof.
  induction xs as [|x xs IH]; simpl; [tauto|].
  rewrite filter_In, IH.
  destruct (String.eqb_spec x s) as [->|Hne]; simpl; [tauto|].
  split; [intros [H|[H _]]; tauto|].
  intros [H|H]; [contradiction|tauto].
Qed.

Lemma unique_NoDup (xs : list string) : NoDup (unique xs).
Proof.
  induction xs as [|x xs IH]; simpl; constructor.
  - rewrite filter_In. intros [_ H]. now rewrite String.eqb_refl in H.
  - now apply NoDup_filter.
Qed.

Lemma list_sum_map_add {A : Type} (g h : A -> nat) (l : list A) :
  list_sum (map (fun a => g a + h a) l)
  = list_sum (map g l) + list_sum (map h l).
Proof. induction l as [|a l IH]; simpl; lia. Qed.

Lemma sum_indicator (x : string) (l : list string) :
  NoDup l ->
  list_sum (map (fun u => if String.eqb x u then 1 else 0) l)
  = if in_dec string_dec x l then 1 else 0.
Proof.
  induction 1 as [|y l Hy Hnd IH]; simpl; [reflexivity|].
  rewrite IH.
  destruct (String.eqb_spec x y) as [Exy|Hne].
  - subst y. destruct (string_dec x x) as [E|C]; [|contradiction].
    destruct (in_dec string_dec x l); [contradiction|reflexivity].
  - destruct (string_dec y x) as [E|N]; [congruence|].
    destruct (in_dec string_dec x l); reflexivity.
Qed.

(** The counts of the values of [l] in [xs] add up to the length of [xs]
    when [l] lists every value of [xs] once. *)
Lemma sum_count_of (l xs : list string) :
  NoDup l ->
  (forall x, In x xs -> In x l) ->
  list_sum (map (fun u => count_of u xs) l) = length xs.
Proof.
  intros Hnd. induction xs as [|x xs IH]; intros Hin; simpl.
  - clear. induction l; simpl; auto.
  - rewrite list_sum_map_add, (sum_indicator x l Hnd), IH.
    + destruct (in_dec string_dec x l) as [_|C]; [reflexivity|].
      exfalso. apply C, Hin. now left.
    + intros y Hy. apply Hin. now right.
Qed.

Lemma insert_count_perm (e : string * nat) (l : list (string * nat)) :
  Permutation (insert_count e l) (e :: l).
Proof.
  induction l as [|e' l IH]; simpl; [reflexivity|].
  destruct (Nat.leb (snd e') (snd e)); [reflexivity|].
  rewrite IH. apply perm_swap.
Qed.

Lemma sort_counts_perm (l : list (string * nat)) :
  Permutation (fold_right insert_count [] l) l.
Proof.
  induction l as [|e l IH]; simpl; [reflexivity|].
  rewrite insert_count_perm. now constructor.
Qed.

Lemma insert_count_sorted (e : string * nat) (l : list (string * nat)) :
  Sorted (fun a b => snd b <= snd a) l ->
  Sorted (fun a b => snd b <= snd a) (insert_count e l).
Proof.
  induction 1 as [|e' l Hs IH Hhd]; simpl.
  - repeat constructor.
  - destruct (Nat.leb (snd e') (snd e)) eqn:E.
    + apply Nat.leb_le in E. repeat constructor; assumption.
    + apply Nat.leb_gt in E. constructor; [exact IH|].
      destruct l as [|e'' l]; simpl.
      * constructor. lia.
      * destruct (Nat.leb (snd e'') (snd e)); constructor;
          [lia|now inversion Hhd].
Qed.

Lemma sort_counts_sorted (l : list (string * nat)) :
  Sorted (fun a b => snd b <= snd a) (fold_right insert_count [] l).
Proof.
  induction l as [|e l IH]; simpl; [constructor|].
  now apply insert_count_sorted.
Qed.

(** What [value_counts] returns: each value of the column once, with the
    number of its occurrences, most frequent first; the counts add up to
    the length of the column. *)
Lemma value_counts_In (xs : list string) (u : string) (n : nat) :
  In (u, n) (value_counts xs) <-> In u xs /\ n = count_of u xs.
Proof.
  unfold value_counts. split.
  - intros H. apply (Permutation_in _ (sort_counts_perm _)) in H.
    apply in_map_iff in H as [u' [[= <- <-] Hu]].
    now rewrite <- unique_In.
  - intros [Hu ->].
    apply (Permutation_in _ (Permutation_sym (sort_counts_perm _))).
    apply in_map_iff. exists u. now rewrite unique_In.
Qed.

Lemma value_counts_keys (xs : list string) :
  Permutation (map fst (value_counts xs)) (unique xs).
Proof.
  unfold value_counts. rewrite sort_counts_perm, map_map. simpl.
  now rewrite map_id.
Qed.

Lemma value_counts_sum (xs : list string) :
  list_sum (map snd (value_counts xs)) = length xs.
Proof.
  unfold value_counts.
  assert (H : Permutation
                (map snd (fold_right insert_count []
                            (map (fun u => (u, count_of u xs)) (unique xs))))
                (map (fun u => count_of u xs) (unique xs))).
  { rewrite sort_counts_perm, map_map. reflexivity. }
  assert (Hsum : forall a b : list nat,
             Permutation a b -> list_sum a = list_sum b).
  { induction 1; simpl; lia. }
  rewrite (Hsum _ _ H). apply sum_count_of.
  - apply unique_NoDup.
  - intros x. apply unique_In.
Qed.

Lemma filter_map_length {A B : Type} (g : B -> bool) (h : A -> B) (l : list A) :
  length (filter g (map h l)) = length (filter (fun x => g (h x)) l).
Proof.
  induction l as [|a l IH]; simpl; [reflexivity|].
  destruct (g (h a)); simpl; now rewrite IH.
Qed.

Lemma sex_cat_two (v : Q) : sex_cat v = "male" \/ sex_cat v = "female".
Proof. unfold sex_cat. destruct (Qgt_bool v 0); auto. Qed.

(** X3.  The views of one run agree on what they show: for a slider range
    of integers that are doubles, the row count of the metrics, the values
    of the histogram, the rows of the pairwise matrix and the sum of the
    counts by gender are all those of the targets that lie in the chosen
    range. *)
Theorem views_agree :
  forall (diabetes : Bunch) (w : Widgets) (page : Page),
    well_shaped diabetes = true ->
    double_exact (fst (target_range w)) ->
    double_exact (snd (target_range w)) ->
    run diabetes w = Ok page ->
    filtered_rows (page_metrics page)
    = length (filter (in_range (target_range w)) (target diabetes))
    /\ page_hist page
       = {| hist_x := FloatCol (filter (in_range (target_range w))
                                       (target diabetes));
            hist_nbins := 30 |}
    /\ len (matrix_frame (page_pair page))
       = filtered_rows (page_metrics page)
    /\ list_sum (map snd (body (page_counts page)))
       = filtered_rows (page_metrics page).
Proof.
  intros diabetes w page Hshape _ _ Hrun.
  destruct (run_Ok_inv _ _ _ Hrun)
    as (d & x & y & gmin & gmax & f & m & sc & h & p & ct
        & Hdf & _ & _ & Hmin & _ & _ & Hf & Hm & _ & Hh & Hp & Hct & ->).
  simpl.
  pose proof (min_target_nonempty diabetes d gmin Hshape Hdf Hmin) as Hne.
  destruct (view_metrics diabetes Hshape d Hdf _ f Hf) as [mb [_ Em]].
  rewrite Em in Hm. injection Hm as <-. simpl.
  rewrite (view_hist diabetes Hshape d Hdf _ f Hf) in Hh. injection Hh as <-.
  destruct (view_pair diabetes Hshape d Hdf _ f Hf) as [cb [cp [_ [_ Ep]]]].
  rewrite Ep in Hp. injection Hp as <-.
  rewrite (view_counts diabetes Hshape d Hdf _ f Hf) in Hct.
  injection Hct as <-. simpl.
  pose proof (view_len diabetes Hshape d Hdf _ f Hf) as Hlen.
  repeat split; try assumption.
  rewrite value_counts_sum, Hlen, <- mask_filter.
  apply mask_length. unfold array_column. rewrite !length_map.
  symmetry. apply (shape_target diabetes Hshape).
Qed.

Lemma views_agree_witness :
  exists page : Page,
    run four_records
        {| x_feature_readable := "Age";
           y_feature_readable := "Sex";
           target_range := (50, 100)%Z;
           colour_by_sex := true;
           show_raw := false |} = Ok page
    /\ filtered_rows (page_metrics page) = 3
    /\ list_sum (map snd (body (page_counts page)))
       = filtered_rows (page_metrics page).
Proof.
  eexists. split; [reflexivity|]. split; [reflexivity|].
  apply (views_agree four_records
           {| x_feature_readable := "Age";
              y_feature_readable := "Sex";
              target_range := (50, 100)%Z;
              colour_by_sex := true;
              show_raw := false |}).
  - reflexivity.
  - unfold double_exact. simpl. lia.
  - unfold double_exact. simpl. lia.
  - reflexivity.
Defined.

(** X4.  The table of counts by gender of a filtered view has the header
    Gender / Count, at most two rows, no gender twice and the larger count
    first; a row (c, n) is in it exactly when c is "male" or "female", n is
    the number of records of the view whose category is c, and n is not
    zero. *)
Theorem gender_counts :
  forall (diabetes : Bunch) (d : DataFrame) (r : Z * Z) (f : DataFrame)
         (ct : CountTable),
    well_shaped diabetes = true ->
    df diabetes = Ok d ->
    filtered d r = Ok f ->
    counts_by_gender f = Ok ct ->
    header ct = ("Gender", "Count")
    /\ NoDup (map fst (body ct))
    /\ length (body ct) <= 2
    /\ Sorted (fun a b => snd b <= snd a) (body ct)
    /\ forall (c : string) (n : nat),
         In (c, n) (body ct) <->
         (c = "male" \/ c = "female")
         /\ 0 < n
         /\ n = length
                  (filter (fun rec =>
                             match field rec "sex_cat" with
                             | Ok (Str s) => String.eqb s c
                             | _ => false
                             end)
                          (records f)).
Proof.
  intros diabetes d r f ct Hshape Hdf Hf Hct.
  rewrite (view_counts diabetes Hshape d Hdf r f Hf) in Hct.
  injection Hct as <-. simpl.
  set (col := mask (map (in_range r) (target diabetes))
                   (map sex_cat (array_column (data diabetes) 1))).
  assert (Hcol : forall c, In c col -> c = "male" \/ c = "female").
  { intros c Hc. unfold col in Hc. rewrite mask_map in Hc.
    apply in_map_iff in Hc as [v [<- _]]. apply sex_cat_two. }
  assert (Hnd : NoDup (map fst (value_counts col))).
  { eapply Permutation_NoDup; [symmetry; apply value_counts_keys|].
    apply unique_NoDup. }
  assert (Hrec : forall c,
             length (filter (fun rec =>
                               match field rec "sex_cat" with
                               | Ok (Str s) => String.eqb s c
                               | _ => false
                               end) (records f))
             = count_of c col).
  { intros c.
    pose proof (view_sex_cat_fields diabetes Hshape d Hdf r f Hf) as E.
    fold col in E.
    rewrite <- (filter_map_length
                  (fun x : result cell =>
                     match x with Ok (Str s) => String.eqb s c | _ => false end)
                  (fun rec => field rec "sex_cat")).
    rewrite E, filter_map_length. simpl.
    now rewrite count_of_filter. }
  split; [reflexivity|]. split; [exact Hnd|].
  split.
  { rewrite <- (length_map fst).
    change 2 with (length ["male"; "female"]).
    apply NoDup_incl_length; [exact Hnd|].
    intros c Hc. apply in_map_iff in Hc as [[c' n] [<- Hin]].
    apply value_counts_In in Hin as [Hin _].
    destruct (Hcol _ Hin) as [-> | ->]; simpl; auto. }
  split; [apply sort_counts_sorted|].
  intros c n. rewrite value_counts_In, Hrec. split.
  - intros [Hin ->]. repeat split; auto. now apply count_of_pos.
  - intros [_ [Hpos ->]]. split; [|reflexivity]. now apply count_of_pos.
Qed.

Lemma gender_counts_witness :
  exists (f : DataFrame) (ct : CountTable),
    filtered four_table (50, 100)%Z = Ok f
    /\ counts_by_gender f = Ok ct
    /\ body ct = [("female", 2); ("male", 1)]
    /\ header ct = ("Gender", "Count")
    /\ NoDup (map fst (body ct))
    /\ length (body ct) <= 2
    /\ Sorted (fun a b => snd b <= snd a) (body ct)
    /\ forall (c : string) (n : nat),
         In (c, n) (body ct) <->
         (c = "male" \/ c = "female")
         /\ 0 < n
         /\ n = length
                  (filter (fun rec =>
                             match field rec "sex_cat" with
                             | Ok (Str s) => String.eqb s c
                             | _ => false
                             end)
                          (records f)).
Proof.
  do 2 eexists. split; [reflexivity|]. split; [reflexivity|].
  split; [reflexivity|].
  apply (gender_counts four_records four_table (50, 100)%Z).
  - reflexivity.
  - reflexivity.
  - reflexivity.
  - reflexivity.
Defined.

(** ** Filtering twice *)

Lemma mask_mask {A B : Type} (p q : A -> bool) (ts : list A) (xs : list B) :
  length xs = length ts ->
  mask (map q (filter p ts)) (mask (map p ts) xs)
  = mask (map (fun t => p t && q t) ts) xs.
Proof.
  revert xs; induction ts as [|t ts IH]; intros [|x xs] H; simpl in *;
    try reflexivity; try discriminate.
  injection H as H.
  destruct (p t); simpl; [destruct (q t)|]; now rewrite IH.
Qed.

Lemma in_range_inter (r1 r2 : Z * Z) (t : Q) :
  in_range (Z.max (fst r1) (fst r2), Z.min (snd r1) (snd r2)) t
  = in_range r1 t && in_range r2 t.
Proof.
  apply eq_true_iff_eq. unfold in_range. simpl.
  rewrite !andb_true_iff, !Qle_bool_iff.
  assert (Hmax : (inject_Z (Z.max (fst r1) (fst r2)) <= t)%Q
                 <-> (inject_Z (fst r1) <= t)%Q /\ (inject_Z (fst r2) <= t)%Q).
  { split.
    - intros H. split; (eapply Qle_trans; [|exact H]);
        rewrite <- Zle_Qle; lia.
    - intros [H1 H2].
      destruct (Z.max_spec (fst r1) (fst r2)) as [[_ ->]|[_ ->]]; assumption. }
  assert (Hmin : (t <= inject_Z (Z.min (snd r1) (snd r2)))%Q
                 <-> (t <= inject_Z (snd r1))%Q /\ (t <= inject_Z (snd r2))%Q).
  { split.
    - intros H. split; (eapply Qle_trans; [exact H|]);
        rewrite <- Zle_Qle; lia.
    - intros [H1 H2].
      destruct (Z.min_spec (snd r1) (snd r2)) as [[_ ->]|[_ ->]]; assumption. }
  rewrite Hmax, Hmin. tauto.
Qed.

(** Filtering a filtered frame is filtering once with the intersection of
    the two ranges. *)
Lemma filtered_filtered (d : DataFrame) (ts : list Q) (r1 r2 : Z * Z)
      (f1 : DataFrame) :
  aligned d ->
  df_getitem d "target" = Ok (FloatCol ts) ->
  filtered d r1 = Ok f1 ->
  filtered f1 r2
  = filtered d (Z.max (fst r1) (fst r2), Z.min (snd r1) (snd r2)).
Proof.
  intros Hal Ht Hf1.
  pose proof (filtered_aligned d ts Hal Ht r1 f1 Hf1) as Hal1.
  pose proof (filtered_target d ts Hal Ht r1 f1 Hf1) as Ht1.
  pose proof (target_length d ts Hal Ht) as Hlen.
  rewrite (filtered_closed_form f1 _ Hal1 Ht1 r2).
  rewrite (filtered_closed_form d ts Hal Ht).
  rewrite (filtered_closed_form d ts Hal Ht r1) in Hf1.
  injection Hf1 as <-. simpl.
  assert (Em : map (in_range (Z.max (fst r1) (fst r2),
                              Z.min (snd r1) (snd r2))) ts
               = map (fun t => in_range r1 t && in_range r2 t) ts).
  { apply map_ext. intros t. apply in_range_inter. }
  rewrite Em. f_equal. f_equal.
  - apply mask_mask. now rewrite Hlen.
  - rewrite map_map. simpl. apply map_ext_in.
    intros [n c] Hin. simpl. f_equal.
    unfold aligned in Hal. rewrite Forall_forall in Hal.
    specialize (Hal _ Hin). simpl in Hal.
    destruct c; simpl in *; f_equal; apply mask_mask; congruence.
Qed.

(** X5.  Filtering the filtered view again with a second range gives the
    view of the intersection of the two ranges; hence two filters commute,
    and filtering with a range inside the first one is filtering the base
    table with it. *)
Theorem range_filters_compose :
  forall (diabetes : Bunch) (d f1 : DataFrame) (r1 r2 : Z * Z),
    well_shaped diabetes = true ->
    df diabetes = Ok d ->
    filtered d r1 = Ok f1 ->
    filtered f1 r2
    = filtered d (Z.max (fst r1) (fst r2), Z.min (snd r1) (snd r2))
    /\ (forall f2 : DataFrame,
          filtered d r2 = Ok f2 -> filtered f2 r1 = filtered f1 r2)
    /\ ((fst r1 <= fst r2)%Z -> (snd r2 <= snd r1)%Z ->
        filtered f1 r2 = filtered d r2).
Proof.
  intros diabetes d f1 r1 r2 Hshape Hdf Hf1.
  pose proof (df_aligned diabetes Hshape d Hdf) as Hal.
  pose proof (df_target diabetes Hshape d Hdf) as Ht.
  pose proof (filtered_filtered d _ r1 r2 f1 Hal Ht Hf1) as H12.
  split; [exact H12|]. split.
  - intros f2 Hf2.
    rewrite H12, (filtered_filtered d _ r2 r1 f2 Hal Ht Hf2).
    now rewrite Z.max_comm, Z.min_comm.
  - intros Hlo Hhi. rewrite H12.
    rewrite Z.max_r, Z.min_r by assumption. now destruct r2.
Qed.

Lemma range_filters_compose_witness :
  exists f1 : DataFrame,
    filtered four_table (25, 100)%Z = Ok f1
    /\ filtered f1 (50, 75)%Z = filtered four_table (50, 75)%Z
    /\ (forall f2 : DataFrame,
          filtered four_table (50, 75)%Z = Ok f2 ->
          filtered f2 (25, 100)%Z = filtered f1 (50, 75)%Z)
    /\ ((25 <= 50)%Z -> (75 <= 100)%Z ->
        filtered f1 (50, 75)%Z = filtered four_table (50, 75)%Z).
Proof.
  eexists. split; [reflexivity|].
  apply (range_filters_compose four_records four_table _ (25, 100)%Z (50, 75)%Z).
  - reflexivity.
  - reflexivity.
  - reflexivity.
Defined.

(** ** Row labels *)

Lemma records_of_labels (idx : list nat) (cs : dict column) :
  Forall (fun nc => col_len (snd nc) = length idx) cs ->
  map fst (records_of idx cs) = idx.
Proof.
  induction 1 as [|[n c] cs Hc Hcs IH]; simpl.
  - rewrite map_map. simpl. apply map_id.
  - rewrite map_map. unfold add_field. simpl.
    etransitivity; [|exact IH].
    apply (map_snd_combine (fun r : record => fst r)).
    rewrite records_of_length by assumption. simpl in Hc.
    destruct c; simpl in *; now rewrite length_map.
Qed.

Lemma mask_seq (p : Q -> bool) (ts : list Q) (s : nat) :
  mask (map p ts) (seq s (length ts))
  = filter (fun i => p (nth (i - s) ts 0%Q)) (seq s (length ts)).
Proof.
  revert s; induction ts as [|t ts IH]; intros s; simpl; [reflexivity|].
  rewrite Nat.sub_diag, IH.
  assert (E : filter (fun i => p (nth (i - S s) ts 0%Q)) (seq (S s) (length ts))
              = filter (fun i => p match i - s with
                                   | 0 => t
                                   | S k => nth k ts 0%Q
                                   end) (seq (S s) (length ts))).
  { apply filter_ext_in. intros i Hi. apply in_seq in Hi.
    replace (i - s) with (S (i - S s)) by lia. reflexivity. }
  rewrite E. destruct (p t); reflexivity.
Qed.

Lemma seq_increasing (s n : nat) : StronglySorted lt (seq s n).
Proof.
  revert s; induction n as [|n IH]; intros s; simpl; constructor.
  - apply IH.
  - rewrite Forall_forall. intros i Hi. apply in_seq in Hi. lia.
Qed.

Lemma filter_increasing (p : nat -> bool) (l : list nat) :
  StronglySorted lt l -> StronglySorted lt (filter p l).
Proof.
  induction 1 as [|a l Hs IH Hall]; simpl; [constructor|].
  destruct (p a); [|exact IH].
  constructor; [exact IH|].
  rewrite Forall_forall in *. intros i Hi. apply filter_In in Hi as [Hi _].
  now apply Hall.
Qed.

(** X6.  The base table has one row per sample, labelled 0, 1, ... in
    order, and twelve columns: the ten features, [target] and [sex_cat].
    The filter keeps the columns and keeps the labels of the rows it keeps
    (it does not renumber them): for bounds that are doubles, the labels of
    the view are, in increasing order, the positions of the targets that lie
    in the range, and they are the labels of its records. *)
Theorem view_labels :
  forall (diabetes : Bunch) (d f : DataFrame) (lo hi : Z),
    well_shaped diabetes = true ->
    df diabetes = Ok d ->
    double_exact lo ->
    double_exact hi ->
    filtered d (lo, hi) = Ok f ->
    index d = seq 0 (length (data diabetes))
    /\ columns d = diabetes_feature_names ++ ["target"; "sex_cat"]
    /\ columns f = columns d
    /\ index f
       = filter (fun i => in_range (lo, hi) (nth i (target diabetes) 0%Q))
                (index d)
    /\ StronglySorted lt (index f)
    /\ map fst (records f) = index f.
Proof.
  intros diabetes d f lo hi Hshape Hdf _ _ Hf.
  pose proof (view_aligned diabetes Hshape d Hdf _ f Hf) as Hal.
  pose proof (df_aligned diabetes Hshape d Hdf) as Hald.
  pose proof (df_target diabetes Hshape d Hdf) as Ht.
  pose proof Hf as Ef. rewrite (filtered_closed_form d _ Hald Ht) in Ef.
  injection Ef as Ef.
  pose proof Hdf as Hd. rewrite (df_closed_form diabetes Hshape) in Hd.
  injection Hd as Hd.
  assert (Hid : index d = seq 0 (length (data diabetes))).
  { now rewrite <- Hd. }
  assert (Hidx : index f
                 = filter (fun i => in_range (lo, hi)
                                      (nth i (target diabetes) 0%Q))
                          (seq 0 (length (data diabetes)))).
  { rewrite <- Ef. simpl.
    rewrite Hid, <- (shape_target diabetes Hshape), mask_seq.
    apply filter_ext. intros i. now rewrite Nat.sub_0_r. }
  split; [exact Hid|]. split; [now rewrite <- Hd|].
  split; [rewrite <- Ef; apply keys_map_values|].
  split; [rewrite Hidx, Hid; reflexivity|].
  split; [rewrite Hidx; apply filter_increasing, seq_increasing|].
  apply records_of_labels. exact Hal.
Qed.

Lemma view_labels_witness :
  exists f : DataFrame,
    filtered four_table (50, 100)%Z = Ok f
    /\ index f = [1; 2; 3]
    /\ index four_table = seq 0 (length (data four_records))
    /\ columns four_table = diabetes_feature_names ++ ["target"; "sex_cat"]
    /\ columns f = columns four_table
    /\ index f
       = filter (fun i => in_range (50, 100)%Z (nth i (target four_records) 0%Q))
                (index four_table)
    /\ StronglySorted lt (index f)
    /\ map fst (records f) = index f.
Proof.
  eexists. split; [reflexivity|]. split; [reflexivity|].
  apply (view_labels four_records four_table _ 50 100).
  - reflexivity.
  - reflexivity.
  - unfold double_exact. simpl. lia.
  - unfold double_exact. simpl. lia.
  - reflexivity.
Defined.

(** ** The raw rows *)

Lemma col_cells_head (n : nat) (c : column) :
  col_cells (col_head n c) = firstn n (col_cells c).
Proof. destruct c; simpl; now rewrite firstn_map. Qed.

Lemma records_of_head (n : nat) (idx : list nat) (cs : dict column) :
  records_of (firstn n idx) (map (fun nc => (fst nc, col_head n (snd nc))) cs)
  = firstn n (records_of idx cs).
Proof.
  induction cs as [|[name c] cs IH]; simpl.
  - now rewrite firstn_map.
  - now rewrite IH, col_cells_head, <- combine_firstn, firstn_map.
Qed.

Lemma map_combine_snd_ext {A B C D : Type} (g : A -> C -> D)
      (c : list A) (l l' : list (B * C)) :
  map snd l = map snd l' ->
  map (fun vr => g (fst vr) (snd (snd vr))) (combine c l)
  = map (fun vr => g (fst vr) (snd (snd vr))) (combine c l').
Proof.
  revert l l'; induction c as [|a c IH]; intros [|x l] [|y l'] H; simpl in *;
    try reflexivity; try discriminate.
  injection H as Hxy H. rewrite Hxy. f_equal. now apply IH.
Qed.

(** The cells of the rows do not depend on the labels. *)
Lemma records_of_relabel (idx idx' : list nat) (cs : dict column) :
  length idx = length idx' ->
  map snd (records_of idx cs) = map snd (records_of idx' cs).
Proof.
  intros Hlen. induction cs as [|[n c] cs IH]; simpl.
  - rewrite !map_map. simpl.
    revert idx' Hlen. induction idx as [|i idx IHi]; intros [|j idx'] H;
      simpl in *; try reflexivity; try discriminate.
    injection H as H. f_equal. now apply IHi.
  - rewrite !map_map. unfold add_field. simpl.
    exact (map_combine_snd_ext (fun v r => (n, v) :: r) _ _ _ IH).
Qed.

Lemma firstn_seq_min (n s len : nat) :
  firstn n (seq s len) = seq s (Nat.min n len).
Proof.
  revert s len; induction n as [|n IH]; intros s [|len]; simpl;
    try reflexivity.
  now rewrite IH.
Qed.

(** X7.  The raw rows shown are the first 200 rows of the filtered view (all
    of them when there are fewer), with their cells unchanged and in order,
    relabelled 0, 1, ... *)
Theorem raw_rows_first_200 :
  forall (diabetes : Bunch) (d f : DataFrame) (r : Z * Z),
    well_shaped diabetes = true ->
    df diabetes = Ok d ->
    filtered d r = Ok f ->
    len (raw_rows f) = Nat.min 200 (len f)
    /\ index (raw_rows f) = seq 0 (Nat.min 200 (len f))
    /\ columns (raw_rows f) = columns f
    /\ aligned (raw_rows f)
    /\ map snd (records (raw_rows f)) = firstn 200 (map snd (records f))
    /\ map fst (records (raw_rows f)) = seq 0 (Nat.min 200 (len f)).
Proof.
  intros diabetes d f r Hshape Hdf Hf.
  pose proof (view_aligned diabetes Hshape d Hdf r f Hf) as Hal.
  assert (Hidx : index (raw_rows f) = seq 0 (Nat.min 200 (len f))).
  { unfold raw_rows, head, reset_index. cbn [index]. apply firstn_seq_min. }
  assert (Hal' : aligned (raw_rows f)).
  { unfold aligned, len in *. rewrite Hidx, length_seq.
    unfold raw_rows, head, reset_index. cbn [cols].
    rewrite Forall_map. eapply Forall_impl; [|exact Hal].
    intros [n c] Hc. cbn [fst snd] in *.
    destruct c; cbn [col_len col_head] in *; rewrite length_firstn; lia. }
  split; [unfold len; now rewrite Hidx, length_seq|].
  split; [exact Hidx|].
  split; [unfold raw_rows, head, reset_index, columns; cbn [cols];
          apply keys_map_values|].
  split; [exact Hal'|].
  split.
  - unfold records, raw_rows, head, reset_index. cbn [index cols].
    rewrite records_of_head, <- firstn_map. f_equal.
    apply records_of_relabel. unfold len. now rewrite length_seq.
  - rewrite <- Hidx. apply records_of_labels. exact Hal'.
Qed.

Lemma raw_rows_first_200_witness :
  exists f : DataFrame,
    filtered four_table (50, 100)%Z = Ok f
    /\ index f = [1; 2; 3]
    /\ len (raw_rows f) = Nat.min 200 (len f)
    /\ index (raw_rows f) = seq 0 (Nat.min 200 (len f))
    /\ columns (raw_rows f) = columns f
    /\ aligned (raw_rows f)
    /\ map snd (records (raw_rows f)) = firstn 200 (map snd (records f))
    /\ map fst (records (raw_rows f)) = seq 0 (Nat.min 200 (len f)).
Proof.
  eexists. split; [reflexivity|]. split; [reflexivity|].
  apply (raw_rows_first_200 four_records four_table _ (50, 100)%Z).
  - reflexivity.
  - reflexivity.
  - reflexivity.
Defined.

(** ** The scatter chart *)

Lemma scatter_labels_lookup (x y lx ly : string) :
  x <> "sex_cat" -> y <> "sex_cat" -> (x = y -> lx = ly) ->
  let labels := of_items [(x, lx); (y, ly); ("sex_cat", "Gender")] in
  getitem labels x = Ok lx
  /\ getitem labels y = Ok ly
  /\ getitem labels "sex_cat" = Ok "Gender".
Proof.
  intros Hx Hy Hxy. unfold of_items. simpl.
  destruct (String.eqb_spec x y) as [E|N].
  - subst y. rewrite (Hxy eq_refl). simpl.
    destruct (String.eqb_spec x "sex_cat") as [E|_]; [contradiction|].
    simpl. rewrite String.eqb_refl.
    destruct (String.eqb_spec x "sex_cat") as [E|_]; [contradiction|].
    repeat split.
  - simpl.
    destruct (String.eqb_spec x "sex_cat") as [E|_]; [contradiction|].
    destruct (String.eqb_spec y "sex_cat") as [E|_]; [contradiction|].
    simpl. rewrite !String.eqb_refl.
    destruct (String.eqb_spec x y) as [E|_]; [contradiction|].
    destruct (String.eqb_spec x "sex_cat") as [E|_]; [contradiction|].
    destruct (String.eqb_spec y "sex_cat") as [E|_]; [contradiction|].
    repeat split.
Qed.

Lemma feature_not_sex_cat (x : string) :
  In x diabetes_feature_names -> x <> "sex_cat".
Proof. intros H ->. simpl in H. intuition discriminate. Qed.

Lemma selection_translated (name id : string) :
  getitem readable_to_original name = Ok id ->
  In name readable_features
  /\ In id diabetes_feature_names
  /\ getitem feature_name_map id = Ok name.
Proof.
  intros H. pose proof H as H'. apply catalog_inverse in H'.
  split; [|split; [|exact H']].
  - apply getitem_present in H.
    change readable_features with (keys readable_to_original).
    unfold keys. apply in_map_iff. now exists (name, id).
  - apply getitem_present in H'.
    change diabetes_feature_names with (keys feature_name_map).
    unfold keys. apply in_map_iff. now exists (id, name).
Qed.

(** X8.  The scatter chart of a run that succeeds shows what was selected:
    the two selections are options of the select boxes, the x and y values
    are the columns of the filtered view that the selections translate to,
    the colouring column is [sex_cat] exactly when colouring is asked for,
    the axis labels of those columns are the selections themselves, the
    label of [sex_cat] is "Gender", and the title is the two selections
    joined by " vs ". *)
Theorem scatter_shows_selection :
  forall (diabetes : Bunch) (w : Widgets) (page : Page),
    well_shaped diabetes = true ->
    run diabetes w = Ok page ->
    exists (d f : DataFrame) (x y : string) (cx cy cc : column),
      df diabetes = Ok d
      /\ filtered d (target_range w) = Ok f
      /\ In (x_feature_readable w) readable_features
      /\ In (y_feature_readable w) readable_features
      /\ x_feature w = Ok x
      /\ y_feature w = Ok y
      /\ df_getitem f x = Ok cx
      /\ df_getitem f y = Ok cy
      /\ df_getitem f "sex_cat" = Ok cc
      /\ scatter_x (page_scatter page) = cx
      /\ scatter_y (page_scatter page) = cy
      /\ scatter_color (page_scatter page)
         = (if colour_by_sex w then Some cc else None)
      /\ getitem (scatter_labels (page_scatter page)) x
         = Ok (x_feature_readable w)
      /\ getitem (scatter_labels (page_scatter page)) y
         = Ok (y_feature_readable w)
      /\ getitem (scatter_labels (page_scatter page)) "sex_cat" = Ok "Gender"
      /\ scatter_title (page_scatter page)
         = (x_feature_readable w ++ " vs " ++ y_feature_readable w)%string.
Proof.
  intros diabetes w page Hshape Hrun.
  destruct (run_Ok_inv _ _ _ Hrun)
    as (d & x & y & gmin & gmax & f & m & sc & h & p & ct
        & Hdf & Hx & Hy & Hmin & _ & _ & Hf & _ & Hsc & _ & _ & _ & ->).
  simpl.
  pose proof (min_target_nonempty diabetes d gmin Hshape Hdf Hmin) as Hne.
  destruct (selection_translated _ _ Hx) as [Hxr [Hxin Hlx]].
  destruct (selection_translated _ _ Hy) as [Hyr [Hyin Hly]].
  destruct (view_scatter diabetes Hshape d Hdf _ f Hf Hne x y
              (colour_by_sex w) Hxin Hyin)
    as (lx & ly & cx & cy & cc & Elx & Ely & Hcx & Hcy & Hcc & Esc).
  rewrite Hlx in Elx. injection Elx as <-.
  rewrite Hly in Ely. injection Ely as <-.
  rewrite Esc in Hsc. injection Hsc as <-. simpl.
  destruct (scatter_labels_lookup x y (x_feature_readable w)
              (y_feature_readable w)
              (feature_not_sex_cat x Hxin) (feature_not_sex_cat y Hyin))
    as [L1 [L2 L3]].
  { intros ->. congruence. }
  exists d, f, x, y, cx, cy, cc. repeat split; assumption.
Qed.

Lemma scatter_shows_selection_witness :
  exists page : Page,
    run four_records
        {| x_feature_readable := "Serum TSH";
           y_feature_readable := "Sex";
           target_range := (50, 100)%Z;
           colour_by_sex := true;
           show_raw := false |} = Ok page
    /\ scatter_y (page_scatter page)
       = FloatCol [-1 # 20; 1 # 20; -1 # 20]%Q
    /\ scatter_title (page_scatter page) = "Serum TSH vs Sex".
Proof.
  eexists. split; [reflexivity|].
  destruct (scatter_shows_selection four_records
              {| x_feature_readable := "Serum TSH";
                 y_feature_readable := "Sex";
                 target_range := (50, 100)%Z;
                 colour_by_sex := true;
                 show_raw := false |} _ eq_refl eq_refl)
    as (d & f & x & y & cx & cy & cc & _ & _ & _ & _ & _ & _ & _ & _ & _
        & _ & _ & _ & _ & _ & _ & Ht).
  split; [reflexivity|exact Ht].
Defined.

(** ** The extremes of the target column *)

(** X9.  In a filtered view with at least one record, for bounds that are
    doubles, the summary of the target column counts the rows of the view,
    and its minimum and maximum are targets of records of the view that lie
    within the chosen range and bound the target of every record of the
    view. *)
Theorem target_summary_in_range :
  forall (diabetes : Bunch) (d f : DataFrame) (lo hi : Z),
    well_shaped diabetes = true ->
    df diabetes = Ok d ->
    double_exact lo ->
    double_exact hi ->
    filtered d (lo, hi) = Ok f ->
    0 < len f ->
    exists (mn mx : Q) (st : dict stat),
      getitem (describe f) "target" = Ok st
      /\ getitem st "count" = Ok (Exact (Fin (of_nat (len f))))
      /\ getitem st "min" = Ok (Exact (Fin mn))
      /\ getitem st "max" = Ok (Exact (Fin mx))
      /\ (inject_Z lo <= mn)%Q /\ (mn <= mx)%Q /\ (mx <= inject_Z hi)%Q
      /\ In (Ok (Num mn)) (map (fun rec => field rec "target") (records f))
      /\ In (Ok (Num mx)) (map (fun rec => field rec "target") (records f))
      /\ forall (rec : record) (t : Q),
           In rec (records f) ->
           field rec "target" = Ok (Num t) ->
           (mn <= t)%Q /\ (t <= mx)%Q.
Proof.
  intros diabetes d f lo hi Hshape Hdf _ _ Hf Hpos.
  pose proof (view_len diabetes Hshape d Hdf _ f Hf) as Hlen.
  pose proof (view_target diabetes Hshape d Hdf _ f Hf) as Ht.
  pose proof (view_aligned diabetes Hshape d Hdf _ f Hf) as Hal.
  set (kept := filter (in_range (lo, hi)) (target diabetes)) in *.
  assert (Hk : kept <> []).
  { intros E. rewrite E in Hlen. simpl in Hlen. lia. }
  assert (Hne : data diabetes <> []).
  { intros E. apply Hk. unfold kept.
    assert (Et : target diabetes = []).
    { apply length_nil_inv. rewrite (shape_target diabetes Hshape), E.
      reflexivity. }
    now rewrite Et. }
  assert (Hin : forall t, In t kept ->
                          (inject_Z lo <= t)%Q /\ (t <= inject_Z hi)%Q).
  { intros t Hkt. apply filter_In in Hkt as [_ Hkt].
    unfold in_range in Hkt. simpl in Hkt.
    apply andb_true_iff in Hkt as [H1 H2].
    now rewrite !Qle_bool_iff in *. }
  destruct (Series_min_spec _ Hk) as [mn [Emin [Imin Lmin]]].
  destruct (Series_max_spec _ Hk) as [mx [Emax [Imax Lmax]]].
  pose proof (records_field f "target" _ Hal Ht) as Hfields.
  simpl in Hfields. rewrite map_map in Hfields.
  exists mn, mx, (Series_describe kept).
  split.
  { rewrite (filtered_view_closed_form diabetes Hshape d Hdf Hne _ f Hf).
    unfold describe. simpl. now rewrite mask_filter. }
  unfold Series_describe. simpl. rewrite Hlen, Emin, Emax.
  split; [reflexivity|]. split; [reflexivity|]. split; [reflexivity|].
  split; [apply (Hin mn Imin)|]. split; [now apply Lmin|].
  split; [apply (Hin mx Imax)|].
  rewrite Hfields.
  split; [apply in_map_iff; now exists mn|].
  split; [apply in_map_iff; now exists mx|].
  intros rec t Hrec Hfield.
  assert (Hkt : In t kept).
  { pose proof (in_map (fun rec => field rec "target") _ _ Hrec) as Hm.
    rewrite Hfields, Hfield in Hm.
    apply in_map_iff in Hm as [t' [[= ->] Hm]]. exact Hm. }
  split; [now apply Lmin|now apply Lmax].
Qed.

Lemma target_summary_in_range_witness :
  exists (f : DataFrame) (mn mx : Q) (st : dict stat),
    filtered four_table (50, 100)%Z = Ok f
    /\ getitem (describe f) "target" = Ok st
    /\ getitem st "count" = Ok (Exact (Fin (of_nat (len f))))
    /\ getitem st "min" = Ok (Exact (Fin mn))
    /\ getitem st "max" = Ok (Exact (Fin mx))
    /\ (inject_Z 50 <= mn)%Q /\ (mn <= mx)%Q /\ (mx <= inject_Z 100)%Q
    /\ In (Ok (Num mn)) (map (fun rec => field rec "target") (records f))
    /\ In (Ok (Num mx)) (map (fun rec => field rec "target") (records f))
    /\ forall (rec : record) (t : Q),
         In rec (records f) ->
         field rec "target" = Ok (Num t) ->
         (mn <= t)%Q /\ (t <= mx)%Q.
Proof.
  assert (Hpos : 0 < 3) by lia.
  assert (Hlo : double_exact 50) by (unfold double_exact; simpl; lia).
  assert (Hhi : double_exact 100) by (unfold double_exact; simpl; lia).
  destruct (target_summary_in_range four_records four_table _ 50 100
              eq_refl eq_refl Hlo Hhi eq_refl Hpos) as (mn & mx & st & H).
  eexists. exists mn, mx, st. split; [reflexivity|exact H].
Defined.

(** ** What each widget affects *)

(** X10.  Of two runs on one dataset with the same range, the metrics, the
    histogram, the pairwise matrix, the descriptive statistics and the
    counts by gender are the same whatever the selections and the check
    boxes are; the raw rows depend on the raw-rows check box only, and the
    scatter chart on the two selections and the colouring check box only. *)
Theorem widgets_affect :
  forall (diabetes : Bunch) (w w' : Widgets) (page page' : Page),
    run diabetes w = Ok page ->
    run diabetes w' = Ok page' ->
    target_range w = target_range w' ->
    page_metrics page = page_metrics page'
    /\ page_hist page = page_hist page'
    /\ page_pair page = page_pair page'
    /\ page_statistics page = page_statistics page'
    /\ page_counts page = page_counts page'
    /\ (show_raw w = show_raw w' -> page_raw page = page_raw page')
    /\ (x_feature_readable w = x_feature_readable w' ->
        y_feature_readable w = y_feature_readable w' ->
        colour_by_sex w = colour_by_sex w' ->
        page_scatter page = page_scatter page').
Proof.
  intros diabetes w w' page page' Hrun Hrun' Hr.
  destruct (run_Ok_inv _ _ _ Hrun)
    as (d & x & y & gmin & gmax & f & m & sc & h & p & ct
        & Hdf & Hx & Hy & _ & _ & _ & Hf & Hm & Hsc & Hh & Hp & Hct & ->).
  destruct (run_Ok_inv _ _ _ Hrun')
    as (d' & x' & y' & gmin' & gmax' & f' & m' & sc' & h' & p' & ct'
        & Hdf' & Hx' & Hy' & _ & _ & _ & Hf' & Hm' & Hsc' & Hh' & Hp' & Hct'
        & ->).
  simpl.
  assert (d' = d) by congruence. subst d'.
  rewrite <- Hr in Hf'.
  assert (f' = f) by congruence. subst f'.
  repeat split; try congruence.
  - intros ->. reflexivity.
  - intros Ex Ey Ec. unfold x_feature, y_feature in *.
    rewrite <- Ex in Hx'. rewrite <- Ey in Hy'. rewrite <- Ec in Hsc'.
    congruence.
Qed.

Lemma widgets_affect_witness :
  exists page page' : Page,
    run four_records
        {| x_feature_readable := "Age";
           y_feature_readable := "Sex";
           target_range := (50, 100)%Z;
           colour_by_sex := true;
           show_raw := false |} = Ok page
    /\ run four_records
           {| x_feature_readable := "Serum TSH";
              y_feature_readable := "Blood Pressure";
              target_range := (50, 100)%Z;
              colour_by_sex := false;
              show_raw := true |} = Ok page'
    /\ page_metrics page = page_metrics page'
    /\ page_hist page = page_hist page'
    /\ page_pair page = page_pair page'
    /\ page_statistics page = page_statistics page'
    /\ page_counts page = page_counts page'.
Proof.
  do 2 eexists. split; [reflexivity|]. split; [reflexivity|].
  destruct (widgets_affect four_records
              {| x_feature_readable := "Age";
                 y_feature_readable := "Sex";
                 target_range := (50, 100)%Z;
                 colour_by_sex := true;
                 show_raw := false |}
              {| x_feature_readable := "Serum TSH";
                 y_feature_readable := "Blood Pressure";
                 target_range := (50, 100)%Z;
                 colour_by_sex := false;
                 show_raw := true |}
              _ _ eq_refl eq_refl eq_refl)
    as (H1 & H2 & H3 & H4 & H5 & _).
  repeat split; assumption.
Defined.

(** ** The first view *)

(** The computed bounds contain every target when all targets are whole
    numbers. *)
Lemma bounds_cover_integral (ts : list Q) (tmin tmax : Q) :
  Series_min ts = Fin tmin ->
  Series_max ts = Fin tmax ->
  (forall t, In t ts -> integral t) ->
  forallb (in_range (trunc tmin, trunc tmax)) ts = true.
Proof.
  intros Emin Emax Hint.
  assert (Hne : ts <> []) by (intros ->; discriminate).
  destruct (Series_min_spec _ Hne) as [mn [Emn [Imn Lmn]]].
  destruct (Series_max_spec _ Hne) as [mx [Emx [Imx Lmx]]].
  assert (mn = tmin) by congruence. assert (mx = tmax) by congruence.
  subst mn mx.
  apply forallb_forall. intros t Ht. unfold in_range. simpl.
  apply andb_true_iff. split; apply Qle_bool_iff.
  - rewrite (trunc_integral tmin) by auto. now apply Lmn.
  - rewrite (trunc_integral tmax) by auto. now apply Lmx.
Qed.

(** X11.  On a dataset of the bundled shape with whole-number targets
    whose computed bounds the slider accepts (the least target is less than
    the greatest, and both are integers the front end holds), the widgets as
    the sidebar first shows them select BMI against blood pressure, coloured
    by gender, over the whole range of the targets, and the run with them
    shows every record. *)
Theorem first_view_shows_everything :
  forall (diabetes : Bunch) (d : DataFrame) (gmin gmax : Z),
    well_shaped diabetes = true ->
    df diabetes = Ok d ->
    min_target d = Ok gmin ->
    max_target d = Ok gmax ->
    slider gmin gmax (gmin, gmax) (gmin, gmax) = Ok (gmin, gmax) ->
    (forall t, In t (target diabetes) -> integral t) ->
    exists (w : Widgets) (page : Page),
      default_widgets d = Ok w
      /\ target_range w = (gmin, gmax)
      /\ x_feature w = Ok "bmi"
      /\ y_feature w = Ok "bp"
      /\ colour_by_sex w = true
      /\ show_raw w = false
      /\ filtered d (target_range w) = Ok d
      /\ run diabetes w = Ok page
      /\ filtered_rows (page_metrics page) = length (data diabetes)
      /\ page_raw page = None.
Proof.
  intros diabetes d gmin gmax Hshape Hdf Hmin Hmax Hslider Hint.
  pose proof (df_aligned diabetes Hshape d Hdf) as Hal.
  pose proof (df_target diabetes Hshape d Hdf) as Ht.
  destruct (bounds_inv diabetes d gmin gmax Hshape Hdf Hmin Hmax)
    as (tmin & tmax & Emin & Emax & Egmin & Egmax & _).
  set (w := {| x_feature_readable := selectbox_default readable_features 2;
               y_feature_readable := selectbox_default readable_features 3;
               target_range := (gmin, gmax);
               colour_by_sex := true;
               show_raw := false |}).
  assert (Hf : filtered d (target_range w) = Ok d).
  { apply (filtered_identity_iff d _ _ Hal Ht). simpl. subst gmin gmax.
    now apply bounds_cover_integral. }
  destruct (run_completes diabetes d w gmin gmax Hshape Hdf Hmin Hmax Hslider)
    as [page Hrun]; [simpl; tauto|simpl; tauto|].
  exists w, page.
  split.
  { unfold default_widgets. rewrite Hmin. cbv beta iota delta [Py.bind].
    rewrite Hmax. cbv beta iota delta [Py.bind]. now rewrite Hslider. }
  split; [reflexivity|].
  split; [reflexivity|]. split; [reflexivity|].
  split; [reflexivity|]. split; [reflexivity|].
  split; [exact Hf|]. split; [exact Hrun|].
  destruct (run_Ok_inv _ _ _ Hrun)
    as (d' & x & y & gmin' & gmax' & f & m & sc & h & p & ct
        & Hdf' & _ & _ & _ & _ & _ & Hf' & Hm & _ & _ & _ & _ & ->).
  assert (d' = d) by congruence. subst d'.
  assert (f = d) by congruence. subst f.
  destruct (view_metrics diabetes Hshape d Hdf _ d Hf) as [mb [_ Em]].
  rewrite Em in Hm. injection Hm as <-. simpl.
  split; [|reflexivity].
  exact (df_len diabetes Hshape d Hdf).
Qed.

Lemma integral_whole (k : Z) : integral (inject_Z k).
Proof. exists k. reflexivity. Qed.

Lemma first_view_shows_everything_witness :
  exists (w : Widgets) (page : Page),
    default_widgets four_table = Ok w
    /\ target_range w = (25, 100)%Z
    /\ x_feature w = Ok "bmi"
    /\ y_feature w = Ok "bp"
    /\ colour_by_sex w = true
    /\ show_raw w = false
    /\ filtered four_table (target_range w) = Ok four_table
    /\ run four_records w = Ok page
    /\ filtered_rows (page_metrics page) = length (data four_records)
    /\ page_raw page = None.
Proof.
  apply (first_view_shows_everything four_records four_table 25 100).
  - reflexivity.
  - reflexivity.
  - reflexivity.
  - reflexivity.
  - reflexivity.
  - simpl. intros t [<-|[<-|[<-|[<-|[]]]]]; apply integral_whole.
Defined.

(** ** When a run goes through *)

(** X1.  On a dataset of the bundled shape a run completes without raising
    exactly when the two selections are options of the select boxes and the
    slider accepts the computed bounds: the dataset has a record, so that
    the bounds exist, the lower bound is less than the upper one, and both
    are integers the front end holds.  The range the slider holds and the
    check boxes make no difference. *)
Theorem run_succeeds :
  forall (diabetes : Bunch) (d : DataFrame) (w : Widgets),
    well_shaped diabetes = true ->
    df diabetes = Ok d ->
    (exists page : Page, run diabetes w = Ok page)
    <-> In (x_feature_readable w) readable_features
        /\ In (y_feature_readable w) readable_features
        /\ exists gmin gmax : Z,
             min_target d = Ok gmin
             /\ max_target d = Ok gmax
             /\ (gmin < gmax)%Z
             /\ validate_int_bounds gmin = true
             /\ validate_int_bounds gmax = true.
Proof.
  intros diabetes d w Hshape Hdf. split.
  - intros [page Hrun].
    destruct (run_Ok_inv _ _ _ Hrun)
      as (d' & x & y & gmin & gmax & f & m & sc & h & p & ct
          & Hdf' & Hx & Hy & Hmin & Hmax & Hslider & _).
    assert (d' = d) by congruence. subst d'.
    destruct (selection_translated _ _ Hx) as [Hxr _].
    destruct (selection_translated _ _ Hy) as [Hyr _].
    destruct (slider_Ok_inv _ _ _ _ _ Hslider) as (_ & Hlt & Hv1 & Hv2).
    split; [exact Hxr|]. split; [exact Hyr|].
    exists gmin, gmax. auto.
  - intros (Hxr & Hyr & gmin & gmax & Hmin & Hmax & Hlt & Hv1 & Hv2).
    apply (run_completes diabetes d w gmin gmax); auto.
    now apply slider_accepts.
Qed.

Lemma run_succeeds_witness :
  exists page : Page,
    run four_records
        {| x_feature_readable := "Serum Glucose";
           y_feature_readable := "Age";
           target_range := (60, 80)%Z;
           colour_by_sex := false;
           show_raw := true |} = Ok page.
Proof.
  apply (run_succeeds four_records four_table); [reflexivity|reflexivity|].
  split; [simpl; tauto|]. split; [simpl; tauto|].
  exists 25%Z, 100%Z. repeat split.
Defined.

(** ** The descriptive statistics *)

Lemma describe_cols_keys (cs : dict column) :
  Forall (fun ns =>
            keys (snd ns)
            = ["count"; "mean"; "std"; "min"; "25%"; "50%"; "75%"; "max"])
         (describe_cols cs).
Proof.
  induction cs as [|[n [xs|xs]] cs IH]; simpl; auto.
Qed.

Lemma describe_cols_count (cs : dict column) (rows : nat) :
  Forall (fun nc => col_len (snd nc) = rows) cs ->
  Forall (fun ns =>
            getitem (snd ns) "count" = Ok (Exact (Fin (of_nat rows))))
         (describe_cols cs).
Proof.
  induction 1 as [|[n [xs|xs]] cs Hc _ IH]; simpl; auto.
  constructor; [|exact IH]. simpl in *. now rewrite Hc.
Qed.

(** X12.  The descriptive statistics of a filtered view of a dataset with
    at least one record have one summary per numeric column, in the order
    of the table: the ten features and the target; the string column
    [sex_cat] has none.  Each summary has the entries count, mean, std, min,
    25%, 50%, 75%, max, and the count that [describe] gives for every column
    is the number of rows of the view. *)
Theorem statistics_shape :
  forall (diabetes : Bunch) (d f : DataFrame) (r : Z * Z),
    well_shaped diabetes = true ->
    df diabetes = Ok d ->
    data diabetes <> [] ->
    filtered d r = Ok f ->
    keys (descriptive_statistics f) = diabetes_feature_names ++ ["target"]
    /\ getitem (descriptive_statistics f) "sex_cat"
       = Raise (KeyError "sex_cat")
    /\ Forall (fun ns =>
                 keys (snd ns)
                 = ["count"; "mean"; "std"; "min"; "25%"; "50%"; "75%"; "max"])
              (descriptive_statistics f)
    /\ keys (describe f) = keys (descriptive_statistics f)
    /\ Forall (fun ns =>
                 getitem (snd ns) "count" = Ok (Exact (Fin (of_nat (len f)))))
              (describe f).
Proof.
  intros diabetes d f r Hshape Hdf Hne Hf.
  pose proof (view_aligned diabetes Hshape d Hdf r f Hf) as Hal.
  assert (Hround : keys (descriptive_statistics f) = keys (describe f)).
  { unfold descriptive_statistics, round_, keys. rewrite map_map.
    reflexivity. }
  assert (Hkeys : keys (describe f) = diabetes_feature_names ++ ["target"]).
  { unfold describe.
    rewrite (filtered_view_closed_form diabetes Hshape d Hdf Hne r f Hf).
    reflexivity. }
  split; [now rewrite Hround|].
  split.
  { apply getitem_missing. rewrite Hround, Hkeys. simpl.
    intuition discriminate. }
  split.
  - unfold descriptive_statistics, round_.
    rewrite Forall_map. cbn [fst snd].
    eapply Forall_impl; [|apply describe_cols_keys].
    intros [n st] H. cbn [snd] in *.
    unfold keys in *. rewrite map_map. cbn [fst]. exact H.
  - split; [now rewrite Hround|].
    apply (describe_cols_count _ (len f)). exact Hal.
Qed.

Lemma statistics_shape_witness :
  exists f : DataFrame,
    filtered four_table (50, 100)%Z = Ok f
    /\ len f = 3
    /\ keys (descriptive_statistics f) = diabetes_feature_names ++ ["target"]
    /\ getitem (descriptive_statistics f) "sex_cat"
       = Raise (KeyError "sex_cat")
    /\ Forall (fun ns =>
                 keys (snd ns)
                 = ["count"; "mean"; "std"; "min"; "25%"; "50%"; "75%"; "max"])
              (descriptive_statistics f)
    /\ keys (describe f) = keys (descriptive_statistics f)
    /\ Forall (fun ns =>
                 getitem (snd ns) "count" = Ok (Exact (Fin (of_nat (len f)))))
              (describe f).
Proof.
  eexists. split; [reflexivity|]. split; [reflexivity|].
  apply (statistics_shape four_records four_table _ (50, 100)%Z).
  - reflexivity.
  - reflexivity.
  - discriminate.
  - reflexivity.
Defined.

(** ** Two edges of a run *)

(** X13.  With both bounds equal to an integer [k] that is a double, the
    filter keeps exactly the records whose target equals [k], and the view
    has as many rows as there are such targets. *)
Theorem exact_match_range :
  forall (diabetes : Bunch) (d f : DataFrame) (k : Z),
    well_shaped diabetes = true ->
    df diabetes = Ok d ->
    double_exact k ->
    filtered d (k, k) = Ok f ->
    len f = length (filter (fun t => Qeq_bool t (inject_Z k)) (target diabetes))
    /\ forall rec : record,
         In rec (records f) <->
         In rec (records d)
         /\ exists t : Q,
              field rec "target" = Ok (Num t) /\ (t == inject_Z k)%Q.
Proof.
  intros diabetes d f k Hshape Hdf _ Hf.
  pose proof (df_aligned diabetes Hshape d Hdf) as Hal.
  pose proof (df_target diabetes Hshape d Hdf) as Ht.
  assert (Heq : forall t, in_range (k, k) t = Qeq_bool t (inject_Z k)).
  { intros t. apply eq_true_iff_eq. unfold in_range. simpl.
    rewrite andb_true_iff, !Qle_bool_iff, Qeq_bool_iff. split.
    - intros [H1 H2]. now apply Qle_antisym.
    - intros ->. split; apply Qle_refl. }
  split.
  - rewrite (view_len diabetes Hshape d Hdf _ f Hf). f_equal.
    apply filter_ext. exact Heq.
  - intros rec.
    rewrite (filtered_records d _ Hal Ht (k, k) f Hf), filter_In.
    unfold target_in. split.
    + intros [Hin Hp]. split; [exact Hin|].
      destruct (field rec "target") as [[t|s]|e]; try discriminate.
      exists t. split; [reflexivity|].
      rewrite Heq in Hp. now apply Qeq_bool_iff.
    + intros [Hin [t [-> Ht']]]. split; [exact Hin|].
      rewrite Heq. now apply Qeq_bool_iff.
Qed.

Lemma exact_match_range_witness :
  exists f : DataFrame,
    filtered four_table (75, 75)%Z = Ok f
    /\ index f = [2]
    /\ len f = length (filter (fun t => Qeq_bool t (inject_Z 75))
                              (target four_records))
    /\ forall rec : record,
         In rec (records f) <->
         In rec (records four_table)
         /\ exists t : Q,
              field rec "target" = Ok (Num t) /\ (t == inject_Z 75)%Q.
Proof.
  eexists. split; [reflexivity|]. split; [reflexivity|].
  apply (exact_match_range four_records four_table _ 75).
  - reflexivity.
  - reflexivity.
  - unfold double_exact. simpl. lia.
  - reflexivity.
Defined.

(** X14.  A selection that is no option of its select box aborts the run
    with a [KeyError] for that selection (the x selection is translated
    first), before the bounds are computed: the run fails this way even on
    a dataset with no record. *)
Theorem unknown_selection_aborts_run :
  forall (diabetes : Bunch) (w : Widgets),
    well_shaped diabetes = true ->
    ~ (In (x_feature_readable w) readable_features
       /\ In (y_feature_readable w) readable_features) ->
    exists key : string,
      run diabetes w = Raise (KeyError key)
      /\ ~ In key readable_features
      /\ key = (if in_dec string_dec (x_feature_readable w) readable_features
                then y_feature_readable w
                else x_feature_readable w).
Proof.
  intros diabetes w Hshape Hnot.
  unfold run. rewrite (df_closed_form diabetes Hshape).
  cbv beta iota delta [Py.bind].
  destruct (in_dec string_dec (x_feature_readable w) readable_features)
    as [Hx|Hx].
  - assert (Hy : ~ In (y_feature_readable w) readable_features) by tauto.
    destruct (option_translates _ Hx) as [x [Ex _]].
    exists (y_feature_readable w). unfold x_feature, y_feature.
    rewrite Ex, (getitem_missing readable_to_original _ Hy).
    repeat split. exact Hy.
  - exists (x_feature_readable w). unfold x_feature.
    rewrite (getitem_missing readable_to_original _ Hx).
    repeat split. exact Hx.
Qed.

Lemma unknown_selection_aborts_run_witness :
  run no_records
      {| x_feature_readable := "Age";
         y_feature_readable := "bmi";
         target_range := (0, 0)%Z;
         colour_by_sex := true;
         show_raw := false |} = Raise (KeyError "bmi").
Proof.
  destruct (unknown_selection_aborts_run no_records
              {| x_feature_readable := "Age";
                 y_feature_readable := "bmi";
                 target_range := (0, 0)%Z;
                 colour_by_sex := true;
                 show_raw := false |} eq_refl) as [key [Hrun [_ Hkey]]].
  - simpl. intuition discriminate.
  - vm_compute in Hkey. rewrite Hkey in Hrun. exact Hrun.
Defined.
